(** * Neuvol: crossover (pairing) strategies, the [cradle] factory and the
      cross-validated fitness evaluator.

    A shallow embedding of
    - [neuvol/crossing/pairing_modules/pairing_modules_interface.py],
    - [neuvol/architecture/cradle.py] and
      [neuvol/architecture/architecture_interface.py],
    - [neuvol/evaluation/evaluation.py].

    Python objects are references into a store: an assignment such as
    [individ.architecture = father.architecture] binds a second name to the
    same list, and a later item assignment through either name is seen
    through both.  The store below keeps that sharing. *)

From Stdlib Require Import QArith.
From stdpp Require Import gmap strings list fin_maps.

(** ** Exceptions and the state-and-exception monad *)

(** Exceptions derived from Python's [Exception], by class, with the
    message or key that the raising code attaches. *)
Inductive exn : Type :=
| ValueError (msg : string)
| IndexError
| KeyError (key : string)
| TypeError (msg : string)
| ArithmeticError (msg : string)
| UnboundLocalError (name : string)
| BackendError (msg : string)   (* whatever a collaborator raises *)
| Dangling.                     (* a reference to no object: cannot occur
                                   in Python, excluded by well-formedness *)

Inductive outcome (A : Type) : Type :=
| Ret (a : A)
| Raise (e : exn).
Arguments Ret {A} a.
Arguments Raise {A} e.

(** A computation reads and writes a state [St]; an exception leaves the
    writes made so far in place, as in Python. *)
Definition SE (St A : Type) : Type := St → outcome A * St.

Definition ret {St A} (a : A) : SE St A := λ s, (Ret a, s).

Definition raise {St A} (e : exn) : SE St A := λ s, (Raise e, s).

Definition bind {St A B} (m : SE St A) (k : A → SE St B) : SE St B :=
  λ s, match m s with
       | (Ret a, s') => k a s'
       | (Raise e, s') => (Raise e, s')
       end.

(** [try: m except Exception: h] *)
Definition try_except {St A} (m : SE St A) (h : exn → SE St A) : SE St A :=
  λ s, match m s with
       | (Ret a, s') => (Ret a, s')
       | (Raise e, s') => h e s'
       end.

Notation "'let!' x ':=' m 'in' k" := (bind m (λ x, k))
  (at level 10, x pattern, m at level 100, k at level 200,
   format "'[v' 'let!'  x  ':='  m  'in' '/' k ']'").
Notation "'run!' m 'in' k" := (bind m (λ _, k))
  (at level 10, m at level 100, k at level 200,
   format "'[v' 'run!'  m  'in' '/' k ']'").

(** Lifting of a pure partial result. *)
Definition lift {St A} (o : outcome A) : SE St A := λ s, (o, s).

(** ** The object store *)

Definition loc : Type := nat.

(** Modelled from the spec: the layer class is not among the sources at
    hand.  A layer gene is opaque to the pairing code beyond its [type] tag;
    its parameter set is carried along and never opened. *)
Record Layer : Type := mkLayer {
  type : string;
  config : list (string * Z)
}.

(** Modelled from the spec: the individual classes are not among the
    sources at hand.  An individual holds three gene groups, an ordered
    sequence of layers and two mappings, as ordinary attributes: reading
    one yields the reference stored in it, assigning one stores a
    reference. *)
Record Individ : Type := mkIndivid {
  architecture : loc;          (* a Python list of layers *)
  training_parameters : loc;   (* a Python dict *)
  data_processing : loc        (* a Python dict *)
}.

(** The store: individuals, lists and dicts by reference, and numpy's
    global random generator as the sequence of its raw outputs together
    with the number already consumed. *)
Record World : Type := mkWorld {
  individs : gmap loc Individ;
  lists : gmap loc (list Layer);
  dicts : gmap loc (gmap string Z);
  rng : nat → nat;
  drawn : nat
}.

Definition upd_individs (f : gmap loc Individ → gmap loc Individ) (w : World) : World :=
  mkWorld (f (individs w)) (lists w) (dicts w) (rng w) (drawn w).

Definition upd_lists (f : gmap loc (list Layer) → gmap loc (list Layer)) (w : World) : World :=
  mkWorld (individs w) (f (lists w)) (dicts w) (rng w) (drawn w).

Definition upd_dicts (f : gmap loc (gmap string Z) → gmap loc (gmap string Z))
    (w : World) : World :=
  mkWorld (individs w) (lists w) (f (dicts w)) (rng w) (drawn w).

Definition next_draw (w : World) : World :=
  mkWorld (individs w) (lists w) (dicts w) (rng w) (S (drawn w)).

Definition with_rng (r : nat → nat) (w : World) : World :=
  mkWorld (individs w) (lists w) (dicts w) r (drawn w).

(** *** Attribute access: [o.attr] and [o.attr = v] *)

Definition getattr (attr : Individ → loc) (o : loc) : SE World loc :=
  λ w, match individs w !! o with
       | Some i => (Ret (attr i), w)
       | None => (Raise Dangling, w)
       end.

Definition set_architecture (v : loc) (i : Individ) : Individ :=
  mkIndivid v (training_parameters i) (data_processing i).

Definition set_training_parameters (v : loc) (i : Individ) : Individ :=
  mkIndivid (architecture i) v (data_processing i).

Definition set_data_processing (v : loc) (i : Individ) : Individ :=
  mkIndivid (architecture i) (training_parameters i) v.

Definition setattr (upd : loc → Individ → Individ) (o : loc) (v : loc) : SE World unit :=
  λ w, match individs w !! o with
       | Some i => (Ret tt, upd_individs (insert o (upd v i)) w)
       | None => (Raise Dangling, w)
       end.

(** *** Lists: [len(l)], [l[i]], [l[i] = x] and reading the whole list *)

Definition list_read (l : loc) : SE World (list Layer) :=
  λ w, match lists w !! l with
       | Some xs => (Ret xs, w)
       | None => (Raise Dangling, w)
       end.

Definition list_len (l : loc) : SE World nat :=
  let! xs := list_read l in ret (length xs).

Definition list_getitem (l : loc) (i : nat) : SE World Layer :=
  let! xs := list_read l in
  match xs !! i with
  | Some x => ret x
  | None => raise IndexError
  end.

Definition list_setitem (l : loc) (i : nat) (x : Layer) : SE World unit :=
  let! xs := list_read l in
  if decide (i < length xs)
  then λ w, (Ret tt, upd_lists (insert l (<[i:=x]> xs)) w)
  else raise IndexError.

(** *** Dicts: [d[k]] and [d[k] = v] *)

Definition dict_getitem (d : loc) (k : string) : SE World Z :=
  λ w, match dicts w !! d with
       | Some m => match m !! k with
                   | Some v => (Ret v, w)
                   | None => (Raise (KeyError k), w)
                   end
       | None => (Raise Dangling, w)
       end.

Definition dict_setitem (d : loc) (k : string) (v : Z) : SE World unit :=
  λ w, match dicts w !! d with
       | Some m => (Ret tt, upd_dicts (insert d (<[k:=v]> m)) w)
       | None => (Raise Dangling, w)
       end.

(** *** Pure helpers on list values *)

(** [range(a, b)] *)
Definition py_range (a b : nat) : list nat := seq a (b - a).

(** [xs[1:-1]]: a new list without the first and the last element. *)
Definition slice_body {A} (xs : list A) : list A :=
  take (length xs - 2) (drop 1 xs).

(** [xs.index(x)]: position of the first occurrence, [ValueError] if none. *)
Fixpoint index_of (x : string) (xs : list string) : outcome nat :=
  match xs with
  | [] => Raise (ValueError "is not in list")
  | y :: ys =>
      if decide (y = x) then Ret 0
      else match index_of x ys with
           | Ret n => Ret (S n)
           | Raise e => Raise e
           end
  end.

(** *** [np.random.choice(a)] on a one-dimensional sequence.
    The text of the message differs between numpy releases; the class does
    not. *)
Definition choice_empty : exn := ValueError "a must be non-empty".

Definition choice {A} (a : list A) : SE World A :=
  λ w, match a with
       | [] => (Raise choice_empty, w)
       | x :: _ => (Ret (nth (rng w (drawn w) mod length a) a x), next_draw w)
       end.

(** ** The pairing strategies ([pairing_modules_interface.py]) *)

(** Father's architecture and mother's training and data. *)
Definition father_architecture_pairing (individ father mother : loc) : SE World loc :=
  let! a := getattr architecture father in
  run! setattr set_architecture individ a in
  let! t := getattr training_parameters mother in
  run! setattr set_training_parameters individ t in
  let! d := getattr data_processing mother in
  run! setattr set_data_processing individ d in
  (* change data processing parameter to avoid incompatibility *)
  let! fd := getattr data_processing father in
  let! v := dict_getitem fd "sentences_length" in
  let! id := getattr data_processing individ in
  run! dict_setitem id "sentences_length" v in
  ret individ.

(** The two draws that open [father_architecture_layers_pairing]:
    [changes_layer] over [range(1, len(father.architecture))] and
    [alter_layer] over [range(1, len(mother.architecture))]. *)
Definition layers_draw (father mother : loc) : SE World (nat * nat) :=
  let! fa := getattr architecture father in
  let! n := list_len fa in
  let! changes_layer := choice (py_range 1 n) in
  let! ma := getattr architecture mother in
  let! m := list_len ma in
  let! alter_layer := choice (py_range 1 m) in
  ret (changes_layer, alter_layer).

(** Select father's architecture and replace random layer with mother's
    layer. *)
Definition father_architecture_layers_pairing (individ father mother : loc) : SE World loc :=
  let! drawn_pair := layers_draw father mother in
  let changes_layer := drawn_pair.1 in
  let alter_layer := drawn_pair.2 in
  let! a := getattr architecture father in
  run! setattr set_architecture individ a in
  let! ma := getattr architecture mother in
  let! g := list_getitem ma alter_layer in
  let! ia := getattr architecture individ in
  run! list_setitem ia changes_layer g in
  let! t := getattr training_parameters father in
  run! setattr set_training_parameters individ t in
  let! d := getattr data_processing father in
  run! setattr set_data_processing individ d in
  ret individ.

(** Select father's architecture and change layer parameters with mother's
    layer; the first and last elements are left out of the search. *)
Definition father_architecture_parameter_pairing (individ father mother : loc) : SE World loc :=
  let! fa := getattr architecture father in
  let! fl := list_read fa in
  let tmp_father := type <$> slice_body fl in
  let! ma := getattr architecture mother in
  let! ml := list_read ma in
  let tmp_mother := type <$> slice_body ml in
  let intersections : gset string := list_to_set tmp_father ∩ list_to_set tmp_mother in
  run! (if decide (intersections = ∅)
        then
          let! a := getattr architecture father in
          run! setattr set_architecture individ a in
          let! t := getattr training_parameters father in
          run! setattr set_training_parameters individ t in
          let! d := getattr data_processing father in
          setattr set_data_processing individ d
        else ret tt) in
  let! intersected_layer := choice (elements intersections) in
  (* add 1, because we did not take into account first layer *)
  let! ci := lift (index_of intersected_layer tmp_father) in
  let changes_layer := ci + 1 in
  let! ai := lift (index_of intersected_layer tmp_mother) in
  let alter_layer := ai + 1 in
  let! a := getattr architecture father in
  run! setattr set_architecture individ a in
  let! ma := getattr architecture mother in
  let! g := list_getitem ma alter_layer in
  let! ia := getattr architecture individ in
  run! list_setitem ia changes_layer g in
  let! t := getattr training_parameters father in
  run! setattr set_training_parameters individ t in
  let! d := getattr data_processing father in
  run! setattr set_data_processing individ d in
  ret individ.

(** Select father's data processing and mother's architecture and training;
    change mother's embedding to avoid mismatches in dimensions. *)
Definition father_data_processing_pairing (individ father mother : loc) : SE World loc :=
  let! a := getattr architecture mother in
  run! setattr set_architecture individ a in
  let! t := getattr training_parameters mother in
  run! setattr set_training_parameters individ t in
  let! d := getattr data_processing father in
  run! setattr set_data_processing individ d in
  (* change data processing parameter to avoid incompatibility *)
  let! fa := getattr architecture father in
  let! g := list_getitem fa 0 in
  let! ia := getattr architecture individ in
  run! list_setitem ia 0 g in
  ret individ.

(** Father's training and mother's architecture and data. *)
Definition father_training_pairing (individ father mother : loc) : SE World loc :=
  let! a := getattr architecture mother in
  run! setattr set_architecture individ a in
  let! t := getattr training_parameters father in
  run! setattr set_training_parameters individ t in
  let! d := getattr data_processing mother in
  run! setattr set_data_processing individ d in
  ret individ.

(** Perform specific pairing according to the pairing type.  The result is
    the individual, or [None]. *)
Definition peform_pairing (individ father mother : loc) (pairing_type : string)
  : SE World (option loc) :=
  if decide (pairing_type = "father_architecture") then
    let! r := father_architecture_pairing individ father mother in ret (Some r)
  else if decide (pairing_type = "father_architecture_layers") then
    let! r := father_architecture_layers_pairing individ father mother in ret (Some r)
  else if decide (pairing_type = "father_architecture_parameter") then
    let! r := father_architecture_parameter_pairing individ father mother in ret (Some r)
  else if decide (pairing_type = "father_training") then
    let! r := father_training_pairing individ father mother in ret (Some r)
  else if decide (pairing_type = "father_data_processing") then
    let! r := father_data_processing_pairing individ father mother in ret (Some r)
  else ret None.

(** *** Genotypes as values: what a reference-free reader of an individual
    sees. *)
Record Genotype : Type := mkGenotype {
  g_architecture : list Layer;
  g_training_parameters : gmap string Z;
  g_data_processing : gmap string Z
}.

Definition genotype (w : World) (o : loc) : option Genotype :=
  match individs w !! o with
  | Some i =>
      match lists w !! architecture i, dicts w !! training_parameters i,
            dicts w !! data_processing i with
      | Some a, Some t, Some d => Some (mkGenotype a t d)
      | _, _, _ => None
      end
  | None => None
  end.

(** ** The genotype factory ([cradle.py], [architecture_interface.py]) *)

(** The double quote character, for the messages that quote argument
    names and values. *)
Definition dq : string := String (Ascii.ascii_of_nat 34) EmptyString.

(** Arguments passed through, uninterpreted, to the concrete constructor. *)
Record IndividArgs : Type := mkIndividArgs {
  stage : Z;
  arg_task_type : string;
  parents : option (loc * loc);
  freeze : option bool;
  kwargs : list (string * Z)
}.

(** Modelled from the spec: the classes [IndividText] and [IndividImage]
    (modules [individ_text] and [individ_image]) are imported by the two
    factory files and are not part of the sources at hand.  Following the
    description of the factory, each constructor builds an individual of
    its flavor from the arguments handed to it. *)
Inductive Individual : Type :=
| IndividText (args : IndividArgs)
| IndividImage (args : IndividArgs).

Module Cradle.
Definition incorrect_data_type : string :=
  "Incorrect " +:+ dq +:+ "data_type" +:+ dq +:+ " argument." +:+
  "Available values: " +:+ dq +:+ "text" +:+ dq +:+ ", " +:+ dq +:+ "image" +:+ dq.

(** Factory method for different data types ([cradle.py]). *)
Definition cradle (epochs : Z) (data_type task_type : string)
    (parents : option (loc * loc)) (freeze : option bool)
    (kwargs : list (string * Z)) : outcome Individual :=
  if decide (data_type = "text") then
    Ret (IndividText (mkIndividArgs epochs task_type parents freeze kwargs))
  else if decide (data_type = "image") then
    Ret (IndividImage (mkIndividArgs epochs task_type parents freeze kwargs))
  else Raise (ValueError incorrect_data_type).
End Cradle.

Module ArchitectureInterface.
(** Factory method for different data types
    ([architecture_interface.py]).  There is no final [else]: control
    falls off the end of the function, which returns [None]. *)
Definition cradle (stage : Z) (data_type task_type : string)
    (parents : option (loc * loc)) (freeze : option bool)
    (kwargs : list (string * Z)) : outcome (option Individual) :=
  if decide (data_type = "text") then
    Ret (Some (IndividText (mkIndividArgs stage task_type parents freeze kwargs)))
  else if decide (data_type = "image") then
    Ret (Some (IndividImage (mkIndividArgs stage task_type parents freeze kwargs)))
  else Ret None.
End ArchitectureInterface.

(** [needle in haystack] for strings. *)
Definition mentions (haystack needle : string) : bool :=
  match String.index 0 needle haystack with
  | Some _ => true
  | None => false
  end.

(** ** The fitness evaluator ([evaluation.py]) *)

(** The network handed to [fit] and [fit_generator], by the attributes the
    evaluator reads from it; its class is a collaborator and not among the
    sources at hand. *)
Record Network : Type := mkNetwork {
  data_type : string;
  task_type : string;
  net_data_processing : gmap string Z;
  net_training_parameters : gmap string Z;
  options : gmap string Z
}.

(** [EarlyStopping(monitor=..., min_delta=..., patience=..., mode=...,
    verbose=...)] *)
Record EarlyStopping : Type := mkEarlyStopping {
  monitor : string;
  es_min_delta : Q;
  es_patience : Z;
  mode : string;
  es_verbose : Z
}.

(** Everything the evaluator calls and does not define: numpy, sklearn,
    keras, tensorflow, the [Data] and [DataGenerator] classes and the
    network's [init_tf_graph].  [backend] is the state those calls share
    (default graph, session, device stack); [real] stands for floating
    point numbers, of which the evaluator only builds zeros and sums. *)
Class Collaborators : Type := {
  backend : Type;
  sample : Type;      (* an element of [x] *)
  label : Type;       (* an element of [y] *)
  row : Type;         (* a processed sample *)
  real : Type;
  handle : Type;      (* model, optimizer, loss, generator objects *)
  zero : real;
  np_sum : list real → real;
  np_argmax : list (list real) → outcome (list nat);         (* [np.array(a).argmax(-1)] *)
  np_column : list (list real) → nat → outcome (list real);  (* [np.array(a)[:, i]] *)
  f1_score : list nat → list nat → outcome (list real);
  roc_curve : list real → list real → outcome (list real * list real * list real);
  auc : list real → list real → outcome real;
  stratified_kfold_split : Z → nat → list nat → SE backend (list (list nat * list nat));
  process_data : list sample → list label → string → string → gmap string Z → bool →
                 SE backend (list row * list (list real));
  label_rows : list label → list (list real);   (* labels as rows of [np.array(real_out)] *)
  data_generator : list sample → list label → string → string → gmap string Z → bool →
                   SE backend handle;
  tf_device_enter : string → backend → backend;
  tf_device_exit : backend → backend;
  tf_reset_default_graph : SE backend unit;
  K_clear_session : SE backend unit;
  init_tf_graph : Network → SE backend (handle * handle * handle);
  nn_compile : handle → handle → handle → list string → SE backend unit;
  nn_fit : handle → list row → list (list real) → Z → Z →
           list row * list (list real) → list EarlyStopping → bool → Z → SE backend unit;
  nn_predict : handle → list row → SE backend (list (list real));
  nn_fit_generator : handle → handle → Z → Z → list EarlyStopping → handle → Z → bool →
                     SE backend unit;
  nn_predict_generator : handle → handle → Z → bool → SE backend (list (list real))
}.

Section Evaluation.
Context {C : Collaborators}.

Record Evaluator : Type := mkEvaluator {
  _x : list sample;
  _y : list label;
  _kfold_number : Z;
  _device : string;
  _generator : bool;
  _create_tokens : bool;
  _use_multiprocessing : bool;
  _workers : Z;
  _early_stopping_min_delta : Q;
  _early_stopping_patience : Z;
  _verbose : Z;
  _fitness_measure : string
}.

Definition incorrect_device : string :=
  "Incorrect " +:+ dq +:+ "device" +:+ dq +:+ " argument." +:+
  "Available values: " +:+ dq +:+ "gpu" +:+ dq +:+ ", " +:+ dq +:+ "cpu" +:+ dq.

(** [Evaluator.__init__] *)
Definition Evaluator_init (x : list sample) (y : list label) (kfold_number : Z)
    (device : string) (generator : bool) : outcome Evaluator :=
  let mk dev :=
    mkEvaluator x y kfold_number dev generator true true 2 (5 # 1000)%Q 5 0 "AUC" in
  if decide (device = "cpu") then Ret (mk "/device:CPU:0")
  else if decide (device = "gpu") then Ret (mk "/device:GPU:0")
  else Raise (ValueError incorrect_device).

Definition assign_device (d : string) : SE Evaluator unit :=
  λ ev, (Ret tt,
         mkEvaluator (_x ev) (_y ev) (_kfold_number ev) d (_generator ev)
           (_create_tokens ev) (_use_multiprocessing ev) (_workers ev)
           (_early_stopping_min_delta ev) (_early_stopping_patience ev)
           (_verbose ev) (_fitness_measure ev)).

(** The [device] property setter: manual device management. *)
Definition device_setter (device : string) : SE Evaluator unit :=
  run! assign_device device in
  if decide (device = "cpu") then assign_device "/device:CPU:0"
  else if decide (device = "gpu") then assign_device "/device:GPU:0"
  else raise (ValueError incorrect_device).

(** *** Control structures *)

(** [for x in xs: acc = body(acc, x)] *)
Fixpoint for_each {St A E} (body : A → E → SE St A) (xs : list E) (acc : A) : SE St A :=
  match xs with
  | [] => ret acc
  | x :: xs' => let! acc' := body acc x in for_each body xs' acc'
  end.

(** [with tf.device(d): body]: the device scope is left on every exit
    path. *)
Definition with_device {A} (d : string) (body : SE backend A) : SE backend A :=
  λ b, match body (tf_device_enter d b) with
       | (r, b') => (r, tf_device_exit b')
       end.

(** [a[idx]] for a list of indices [idx]. *)
Fixpoint take_rows {A} (a : list A) (idx : list nat) : outcome (list A) :=
  match idx with
  | [] => Ret []
  | i :: idx' =>
      match a !! i with
      | None => Raise IndexError
      | Some v =>
          match take_rows a idx' with
          | Ret vs => Ret (v :: vs)
          | Raise e => Raise e
          end
      end
  end.

(** [d[k]] on a dict value. *)
Definition item (d : gmap string Z) (k : string) : outcome Z :=
  match d !! k with
  | Some v => Ret v
  | None => Raise (KeyError k)
  end.

(** [[list(range(self._x.shape[0]))] * 2], unpacked as [train, test]. *)
Definition whole_range_fold (ev : Evaluator) : list (list nat * list nat) :=
  let r := py_range 0 (length (_x ev)) in [(r, r)].

(** The fold splits of [fit]. *)
Definition kfold_generator_fit (ev : Evaluator) (y : list (list real))
  : SE backend (list (list nat * list nat)) :=
  if decide (_kfold_number ev ≠ 1%Z) then
    let! labels := lift (np_argmax y) in
    stratified_kfold_split (_kfold_number ev) (length (_x ev)) labels
  else
    (* to work without cross-validation and avoid code duplication we
       imitate kfold behaviour and return two lists of indexes *)
    ret (whole_range_fold ev).

(** The fold splits of [fit_generator]. *)
Definition kfold_generator_fit_generator (ev : Evaluator)
  : SE backend (list (list nat * list nat)) :=
  if decide (_kfold_number ev ≠ 1%Z) then
    stratified_kfold_split (_kfold_number ev) (length (_x ev))
      (replicate (length (_y ev)) 0)
  else
    ret (whole_range_fold ev).

Definition early_stopping (ev : Evaluator) (verbose : Z) : EarlyStopping :=
  mkEarlyStopping "val_loss" (_early_stopping_min_delta ev)
    (_early_stopping_patience ev) "auto" verbose.

Definition tensor_error : exn := ArithmeticError "Tensor could not be compiled".

(** *** Fitness reduction *)

(** The [try] block of the AUC loop for class [i]:
    [roc_curve(np.array(real_out)[:, i], np.array(predicted_out)[:, i])]. *)
Definition roc_try (predicted_out real_out : list (list real)) (i : nat)
  : outcome (list real * list real * list real) :=
  match np_column real_out i with
  | Raise e => Raise e
  | Ret r =>
      match np_column predicted_out i with
      | Raise e => Raise e
      | Ret p => roc_curve r p
      end
  end.

(** [fpr[i], tpr[i]] after the [try] statement: the curve, or the zeros
    put in its place by the handler. *)
Definition class_curve (predicted_out real_out : list (list real)) (i : nat)
  : list real * list real :=
  match roc_try predicted_out real_out i with
  | Ret (fpr, tpr, _) => (fpr, tpr)
  | Raise e =>
      (* print('AUC error', e) *)
      (replicate (length real_out) zero, replicate (length predicted_out) zero)
  end.

(** The body of the AUC loop: [roc_auc.append(auc(fpr[i], tpr[i]))]. *)
Definition class_auc (predicted_out real_out : list (list real))
    (roc_auc : list real) (i : nat) : outcome (list real) :=
  let curve := class_curve predicted_out real_out i in
  match auc curve.1 curve.2 with
  | Ret a => Ret (roc_auc ++ [a])
  | Raise e => Raise e
  end.

Fixpoint auc_loop (predicted_out real_out : list (list real))
    (classes : list nat) (roc_auc : list real) : outcome (list real) :=
  match classes with
  | [] => Ret roc_auc
  | i :: rest =>
      match class_auc predicted_out real_out roc_auc i with
      | Ret roc_auc' => auc_loop predicted_out real_out rest roc_auc'
      | Raise e => Raise e
      end
  end.

(** Return fitness results. *)
Definition test_classification (ev : Evaluator)
    (predicted_out real_out : list (list real)) (classes : Z) : outcome real :=
  if decide (_fitness_measure ev = "f1") then
    match np_argmax predicted_out with
    | Raise e => Raise e
    | Ret predicted =>
        match np_argmax real_out with
        | Raise e => Raise e
        | Ret real_ =>
            match f1_score real_ predicted with
            | Ret f1 => Ret (np_sum f1)
            | Raise e => Raise e
            end
        end
    end
  else if decide (_fitness_measure ev = "AUC") then
    match auc_loop predicted_out real_out (py_range 0 (Z.to_nat classes)) [] with
    | Ret roc_auc => Ret (np_sum roc_auc)
    | Raise e => Raise e
    end
  else Raise (TypeError "Unrecognized fitness measure").

(** The tail shared by [fit] and [fit_generator]:
    [if network.task_type == 'classification': result = ...; return result]. *)
Definition result_of (ev : Evaluator) (network : Network)
    (out : list (list real) * list (list real)) : SE backend real :=
  if decide (task_type network = "classification") then
    let! classes := lift (item (options network) "classes") in
    lift (test_classification ev out.1 out.2 classes)
  else raise (UnboundLocalError "result").

(** *** [fit] *)

(** The [try] block of one fold of [fit]; [out] is
    [(predicted_out, real_out)]. *)
Definition fit_try (ev : Evaluator) (network : Network)
    (x : list row) (y : list (list real))
    (out : list (list real) * list (list real)) (fold : list nat * list nat)
  : SE backend (list (list real) * list (list real)) :=
  let train := fold.1 in
  let test := fold.2 in
  let! g := init_tf_graph network in
  let nn := g.1.1 in
  let optimizer := g.1.2 in
  let loss := g.2 in
  run! nn_compile nn optimizer loss ["accuracy"] in
  let callbacks := [early_stopping ev (_verbose ev)] in
  let! x_train := lift (take_rows x train) in
  let! y_train := lift (take_rows y train) in
  let! batchs := lift (item (net_training_parameters network) "batchs") in
  let! epochs := lift (item (net_training_parameters network) "epochs") in
  let! x_test := lift (take_rows x test) in
  let! y_test := lift (take_rows y test) in
  run! nn_fit nn x_train y_train batchs epochs (x_test, y_test) callbacks true
         (_verbose ev) in
  let! x_test' := lift (take_rows x test) in
  let! predicted := nn_predict nn x_test' in
  let! real_ := lift (take_rows y test) in
  ret (out.1 ++ predicted, out.2 ++ real_).

(** One iteration of the loop of [fit]. *)
Definition fit_fold (ev : Evaluator) (network : Network)
    (x : list row) (y : list (list real))
    (out : list (list real) * list (list real)) (fold : list nat * list nat)
  : SE backend (list (list real) * list (list real)) :=
  let! out' :=
    with_device (_device ev)
      (try_except (fit_try ev network x y out fold)
         (λ _, (* if self._verbose == 1: print(...) *) raise tensor_error)) in
  run! tf_reset_default_graph in
  run! K_clear_session in
  ret out'.

(** Training function.  N steps of cross-validation. *)
Definition fit (ev : Evaluator) (network : Network) : SE backend real :=
  let! xy := process_data (_x ev) (_y ev) (data_type network) (task_type network)
               (net_data_processing network) (_create_tokens ev) in
  let x := xy.1 in
  let y := xy.2 in
  let! kfold_generator := kfold_generator_fit ev y in
  let! out := for_each (fit_fold ev network x y) kfold_generator ([], []) in
  result_of ev network out.

(** *** [fit_generator] *)

(** The body of the [with] block of one fold of [fit_generator]. *)
Definition fit_generator_body (ev : Evaluator) (network : Network)
    (train_generator test_generator : handle)
    (out : list (list real) * list (list real)) (test : list nat)
  : SE backend (list (list real) * list (list real)) :=
  let! g := init_tf_graph network in
  let nn := g.1.1 in
  let optimizer := g.1.2 in
  let loss := g.2 in
  run! nn_compile nn optimizer loss ["accuracy"] in
  let callbacks := [early_stopping ev 0] in
  let! epochs := lift (item (net_training_parameters network) "epochs") in
  run! nn_fit_generator nn train_generator epochs (_verbose ev) callbacks
         test_generator (_workers ev) (_use_multiprocessing ev) in
  let! predicted := nn_predict_generator nn test_generator (_workers ev)
                      (_use_multiprocessing ev) in
  let! y_test := lift (take_rows (_y ev) test) in
  let real_ := label_rows y_test in
  ret (out.1 ++ predicted, out.2 ++ real_).

(** The two generators built at the head of one iteration of
    [fit_generator]: [(train_generator, test_generator)]. *)
Definition fold_generators (ev : Evaluator) (network : Network)
    (fold : list nat * list nat) : SE backend (handle * handle) :=
  let train := fold.1 in
  let test := fold.2 in
  let! x_train := lift (take_rows (_x ev) train) in
  let! y_train := lift (take_rows (_y ev) train) in
  let! train_generator :=
    data_generator x_train y_train (data_type network) (task_type network)
      (net_data_processing network) (_create_tokens ev) in
  let! x_test := lift (take_rows (_x ev) test) in
  let! y_test := lift (take_rows (_y ev) test) in
  let! test_generator :=
    data_generator x_test y_test (data_type network) (task_type network)
      (net_data_processing network) (_create_tokens ev) in
  ret (train_generator, test_generator).

(** One iteration of the loop of [fit_generator]. *)
Definition fit_generator_fold (ev : Evaluator) (network : Network)
    (out : list (list real) * list (list real)) (fold : list nat * list nat)
  : SE backend (list (list real) * list (list real)) :=
  let! generators := fold_generators ev network fold in
  let! out' :=
    with_device (_device ev)
      (fit_generator_body ev network generators.1 generators.2 out fold.2) in
  run! tf_reset_default_graph in
  run! K_clear_session in
  ret out'.

(** Training function with generators.  N steps of cross-validation. *)
Definition fit_generator (ev : Evaluator) (network : Network) : SE backend real :=
  let! kfold_generator := kfold_generator_fit_generator ev in
  let! out := for_each (fit_generator_fold ev network) kfold_generator ([], []) in
  result_of ev network out.
End Evaluation.

(** ** Specification vocabulary and concrete inputs *)

(** The five strategy tags dispatched on by [peform_pairing]. *)
Definition recognized_pairing_types : list string :=
  ["father_architecture"; "father_architecture_layers";
   "father_architecture_parameter"; "father_training"; "father_data_processing"].

(** Object [o] is the individual [O], and its three gene groups hold the
    genotype [g]. *)
Definition has_genotype (w : World) (o : loc) (O : Individ) (g : Genotype) : Prop :=
  individs w !! o = Some O ∧
  lists w !! architecture O = Some (g_architecture g) ∧
  dicts w !! training_parameters O = Some (g_training_parameters g) ∧
  dicts w !! data_processing O = Some (g_data_processing g).

(** The two parents have no gene-group object in common, and within each
    the training and the data dicts are two objects. *)
Definition unshared (F M : Individ) : Prop :=
  architecture F ≠ architecture M ∧
  NoDup [training_parameters F; data_processing F;
         training_parameters M; data_processing M].

(** The invariants of the data model that the strategies rely on: at least
    an input and an output gene, and the input-shape field. *)
Definition well_formed (g : Genotype) : Prop :=
  2 ≤ length (g_architecture g) ∧
  is_Some (g_data_processing g !! "sentences_length").

(** The body genes of two architectures have no layer type in common. *)
Definition no_common_type (fl ml : list Layer) : Prop :=
  list_to_set (type <$> slice_body fl) ∩ list_to_set (type <$> slice_body ml)
    = (∅ : gset string).

(** What a call of [peform_pairing] that returns the child has done to the
    genotypes [fg], [mg] of the father and the mother, which are [fg'] and
    [mg'] afterwards. *)
Definition parent_frame (pairing_type : string) (fg mg fg' mg' : Genotype) : Prop :=
    g_training_parameters fg' = g_training_parameters fg ∧
    g_training_parameters mg' = g_training_parameters mg ∧
    (pairing_type = "father_training" → fg' = fg ∧ mg' = mg) ∧
    (pairing_type = "father_architecture" →
       fg' = fg ∧ g_architecture mg' = g_architecture mg ∧
       ∃ v, g_data_processing fg !! "sentences_length" = Some v ∧
            g_data_processing mg' = <["sentences_length" := v]> (g_data_processing mg)) ∧
    (pairing_type = "father_architecture_layers" →
       mg' = mg ∧ g_data_processing fg' = g_data_processing fg ∧
       ∃ c a new,
         1 ≤ c < length (g_architecture fg) ∧ 1 ≤ a < length (g_architecture mg) ∧
         g_architecture mg !! a = Some new ∧
         g_architecture fg' = <[c := new]> (g_architecture fg)) ∧
    (pairing_type = "father_architecture_parameter" →
       mg' = mg ∧ g_data_processing fg' = g_data_processing fg ∧
       ∃ c a old new,
         1 ≤ c < length (g_architecture fg) - 1 ∧
         1 ≤ a < length (g_architecture mg) - 1 ∧
         g_architecture fg !! c = Some old ∧ g_architecture mg !! a = Some new ∧
         type old = type new ∧
         g_architecture fg' = <[c := new]> (g_architecture fg)) ∧
    (pairing_type = "father_data_processing" →
       fg' = fg ∧ g_data_processing mg' = g_data_processing mg ∧
       ∃ g0, g_architecture fg !! 0 = Some g0 ∧
             g_architecture mg' = <[0 := g0]> (g_architecture mg)).

Definition embedding (n : Z) : Layer := mkLayer "embedding" [("sentences_length", n)].
Definition lstm : Layer := mkLayer "lstm" [("units", 32%Z)].
Definition cnn (filters : Z) : Layer := mkLayer "cnn" [("filters", filters)].
Definition dense (n : Z) : Layer := mkLayer "dense" [("units", n)].

Definition shell : Individ := mkIndivid 10 11 12.
Definition father_obj : Individ := mkIndivid 20 21 22.
Definition mother_obj : Individ := mkIndivid 30 31 32.

Definition father_training_dict : gmap string Z :=
  <["epochs" := 10%Z]> (<["batchs" := 32%Z]> ∅).
Definition father_data_dict : gmap string Z :=
  <["sentences_length" := 100%Z]> ∅.
Definition mother_training_dict : gmap string Z :=
  <["epochs" := 20%Z]> (<["batchs" := 8%Z]> ∅).
Definition mother_data_dict : gmap string Z :=
  <["sentences_length" := 50%Z]> (<["classes" := 2%Z]> ∅).

(** Object 0 is the target shell, object 1 the father with architecture
    [fl], object 2 the mother with architecture [ml]; the generator's raw
    outputs are [r 0, r 1, ...]. *)
Definition family (fl ml : list Layer) (r : nat → nat) : World :=
  mkWorld
    (<[0 := shell]> (<[1 := father_obj]> (<[2 := mother_obj]> ∅)))
    (<[10 := []]> (<[20 := fl]> (<[30 := ml]> ∅)))
    (<[11 := ∅]> (<[12 := ∅]>
      (<[21 := father_training_dict]> (<[22 := father_data_dict]>
      (<[31 := mother_training_dict]> (<[32 := mother_data_dict]> ∅))))))
    r 0.

Definition father_genes : list Layer := [embedding 100; lstm; cnn 16; dense 3].
Definition mother_genes : list Layer := [embedding 50; cnn 64; dense 2].
Definition father_genotype : Genotype :=
  mkGenotype father_genes father_training_dict father_data_dict.
Definition mother_genotype : Genotype :=
  mkGenotype mother_genes mother_training_dict mother_data_dict.

(** Parents with a common body type ([cnn]). *)
Definition w_common (r : nat → nat) : World := family father_genes mother_genes r.

(** Parents whose body genes have no type in common. *)
Definition w_disjoint : World :=
  family [embedding 100; lstm; dense 3] [embedding 50; cnn 64; dense 2] (λ _, 0).

(** *** A small instance of the collaborators

    The backend state is the log of the calls made to the training
    framework.  A sample is a class index, a label or a prediction is a
    one-hot row, and [nn_compile] raises in the fold numbered [bad]
    (counting from 0). *)

Definition one_hot (k : nat) : list Z := [if decide (k = 0) then 1%Z else 0%Z;
                                          if decide (k = 1) then 1%Z else 0%Z].

Definition log_call {A} (name : string) (r : outcome A) : SE (list string) A :=
  λ b, (r, b ++ [name]).

Fixpoint column_of (rows : list (list Z)) (i : nat) : outcome (list Z) :=
  match rows with
  | [] => Ret []
  | r :: rows' =>
      match r !! i, column_of rows' i with
      | Some v, Ret vs => Ret (v :: vs)
      | None, _ => Raise IndexError
      | _, Raise e => Raise e
      end
  end.

Definition toy (bad : nat) : Collaborators := {|
  backend := list string;
  sample := nat;
  label := list Z;
  row := nat;
  real := Z;
  handle := nat;
  zero := 0%Z;
  np_sum := foldr Z.add 0%Z;
  np_argmax := λ rows, Ret ((λ r, if decide (r !! 0 = Some 1%Z) then 0 else 1) <$> rows);
  np_column := λ rows i,
    match rows with
    | [] => Raise IndexError
    | _ => column_of rows i
    end;
  f1_score := λ real_ predicted, Ret [1%Z; 1%Z];
  roc_curve := λ real_ predicted,
    if decide (1%Z ∈ real_) then Ret (real_, predicted, [])
    else Raise (ValueError "No positive samples in y_true");
  auc := λ fpr tpr,
    if decide (length fpr < 2) then Raise (ValueError "At least 2 points are needed")
    else Ret (foldr Z.max 0%Z tpr);
  stratified_kfold_split := λ n_splits n labels,
    log_call "StratifiedKFold.split" (Ret [(seq 1 (n - 1), [0]); ([0], seq 1 (n - 1))]);
  process_data := λ x y dt tt dp tokens,
    log_call "process_data" (Ret (x, y));
  label_rows := λ y, y;
  data_generator := λ x y dt tt dp tokens, log_call "DataGenerator" (Ret (length x));
  tf_device_enter := λ d b, b ++ ["enter " +:+ d];
  tf_device_exit := λ b, b ++ ["exit"];
  tf_reset_default_graph := log_call "reset_default_graph" (Ret tt);
  K_clear_session := log_call "clear_session" (Ret tt);
  init_tf_graph := λ network, log_call "init_tf_graph" (Ret (1, 2, 3));
  nn_compile := λ nn optimizer loss metrics b,
    if decide (length (filter (λ s, s = "compile") b) = bad)
    then (Raise (BackendError "compile"), b ++ ["compile"])
    else (Ret tt, b ++ ["compile"]);
  nn_fit := λ nn x y batch_size epochs val callbacks shuffle verbose,
    log_call "fit" (Ret tt);
  nn_predict := λ nn x, log_call "predict" (Ret (one_hot <$> x));
  nn_fit_generator := λ nn gen epochs verbose callbacks val workers mp,
    log_call "fit_generator" (Ret tt);
  nn_predict_generator := λ nn gen workers mp,
    log_call "predict_generator" (Ret (replicate gen (one_hot 0)))
|}.

Definition toy_network : Network :=
  mkNetwork "text" "classification" father_data_dict father_training_dict
    (<["classes" := 2%Z]> ∅).

(** An evaluator over four samples of classes 0, 1, 0, 1. *)
Definition toy_evaluator (bad : nat) (kfold_number : Z) : Evaluator (C := toy bad) :=
  mkEvaluator (C := toy bad) [0; 1; 0; 1] (one_hot <$> [0; 1; 0; 1]) kfold_number "/device:CPU:0"
    false true true 2 (5 # 1000)%Q 5 0 "AUC".

(** ** The evaluator's properties and setters ([evaluation.py]) *)

Section EvaluatorAccessors.
Context {C : Collaborators}.

(** The read-only side of the properties. *)
Definition early_stopping_min_delta (ev : Evaluator) : Q := _early_stopping_min_delta ev.
Definition early_stopping_patience (ev : Evaluator) : Z := _early_stopping_patience ev.
Definition create_tokens (ev : Evaluator) : bool := _create_tokens ev.
Definition verbose (ev : Evaluator) : Z := _verbose ev.
Definition fitness_measure (ev : Evaluator) : string := _fitness_measure ev.
Definition device (ev : Evaluator) : string := _device ev.

(** [self._early_stopping['min_delta'] = min_delta] *)
Definition early_stopping_min_delta_setter (min_delta : Q) : SE Evaluator unit :=
  λ ev, (Ret tt,
         mkEvaluator (_x ev) (_y ev) (_kfold_number ev) (_device ev) (_generator ev)
           (_create_tokens ev) (_use_multiprocessing ev) (_workers ev)
           min_delta (_early_stopping_patience ev)
           (_verbose ev) (_fitness_measure ev)).

(** [self._early_stopping['patience'] = patience] *)
Definition early_stopping_patience_setter (patience : Z) : SE Evaluator unit :=
  λ ev, (Ret tt,
         mkEvaluator (_x ev) (_y ev) (_kfold_number ev) (_device ev) (_generator ev)
           (_create_tokens ev) (_use_multiprocessing ev) (_workers ev)
           (_early_stopping_min_delta ev) patience
           (_verbose ev) (_fitness_measure ev)).

(** [self._create_tokens = create_tokens] *)
Definition create_tokens_setter (create_tokens : bool) : SE Evaluator unit :=
  λ ev, (Ret tt,
         mkEvaluator (_x ev) (_y ev) (_kfold_number ev) (_device ev) (_generator ev)
           create_tokens (_use_multiprocessing ev) (_workers ev)
           (_early_stopping_min_delta ev) (_early_stopping_patience ev)
           (_verbose ev) (_fitness_measure ev)).

(** [self._verbose = verbose] *)
Definition verbose_setter (verbose : Z) : SE Evaluator unit :=
  λ ev, (Ret tt,
         mkEvaluator (_x ev) (_y ev) (_kfold_number ev) (_device ev) (_generator ev)
           (_create_tokens ev) (_use_multiprocessing ev) (_workers ev)
           (_early_stopping_min_delta ev) (_early_stopping_patience ev)
           verbose (_fitness_measure ev)).

(** [self._fitness_measure = fitness_measure]: any value is stored. *)
Definition fitness_measure_setter (fitness_measure : string) : SE Evaluator unit :=
  λ ev, (Ret tt,
         mkEvaluator (_x ev) (_y ev) (_kfold_number ev) (_device ev) (_generator ev)
           (_create_tokens ev) (_use_multiprocessing ev) (_workers ev)
           (_early_stopping_min_delta ev) (_early_stopping_patience ev)
           (_verbose ev) fitness_measure).

(** Set multiprocessing parameters for data generator. *)
Definition set_DataGenerator_multiproc (use_multiprocessing : bool) (workers : Z)
  : SE Evaluator unit :=
  λ ev, (Ret tt,
         mkEvaluator (_x ev) (_y ev) (_kfold_number ev) (_device ev) (_generator ev)
           (_create_tokens ev) use_multiprocessing workers
           (_early_stopping_min_delta ev) (_early_stopping_patience ev)
           (_verbose ev) (_fitness_measure ev)).

(** The two device handles that [__init__] and the [device] setter store. *)
Definition device_handles : list string := ["/device:CPU:0"; "/device:GPU:0"].
End EvaluatorAccessors.

(** ** Vocabulary for the store *)

(** What no pairing strategy does to the store, whatever its arguments and
    whether it returns or raises: [w'] has the objects of [w] and no other,
    every list has kept its length, every dict has kept its entries under
    all keys but ['sentences_length'], and the generator has only moved
    forward. *)
Definition steady (w w' : World) : Prop :=
  (∀ o, is_Some (individs w' !! o) ↔ is_Some (individs w !! o)) ∧
  (∀ l, length <$> lists w' !! l = length <$> lists w !! l) ∧
  (∀ d, is_Some (dicts w' !! d) ↔ is_Some (dicts w !! d)) ∧
  (∀ d k, k ≠ "sentences_length" →
          dicts w' !! d ≫= (.!! k) = dicts w !! d ≫= (.!! k)) ∧
  rng w' = rng w ∧ drawn w ≤ drawn w'.

(** A computation keeps the store steady from every start. *)
Definition keeps_steady {A} (m : SE World A) : Prop :=
  ∀ w, steady w (m w).2.

(** The architecture a reader of object [o] sees. *)
Definition architecture_of (w : World) (o : loc) : option (list Layer) :=
  g_architecture <$> genotype w o.

(** [w_common] with a second target shell, object 3. *)
Definition second_shell : Individ := mkIndivid 13 14 15.

Definition w_two_shells (r : nat → nat) : World :=
  upd_individs (insert 3 second_shell)
    (upd_lists (insert 13 [])
       (upd_dicts (insert 14 ∅) (upd_dicts (insert 15 ∅) (w_common r)))).

(** A network for a task other than classification. *)
Definition toy_regression_network : Network :=
  mkNetwork "text" "regression" father_data_dict father_training_dict
    (<["classes" := 2%Z]> ∅).

(** An evaluator without cross-validation over four samples and two
    labels. *)
Definition toy_short_labels_evaluator : Evaluator (C := toy 9) :=
  mkEvaluator (C := toy 9) [0; 1; 0; 1] (one_hot <$> [0; 1]) 1 "/device:CPU:0"
    false true true 2 (5 # 1000)%Q 5 0 "AUC".

(** A computation draws no random number, from any start. *)
Definition draws_nothing {A} (m : SE World A) : Prop :=
  ∀ w, rng (m w).2 = rng w ∧ drawn (m w).2 = drawn w.

(** The pairing types whose strategy makes no call of [np.random.choice]. *)
Definition deterministic_pairing_types : list string :=
  ["father_architecture"; "father_training"; "father_data_processing"].

(** Collaborators as in [toy 9], except that the preparation of the data
    raises when there is no sample, and the reset of the default graph
    raises once a prediction has been made. *)
Definition frail : Collaborators := {|
  backend := list string;
  sample := nat;
  label := list Z;
  row := nat;
  real := Z;
  handle := nat;
  zero := 0%Z;
  np_sum := np_sum (Collaborators := toy 9);
  np_argmax := np_argmax (Collaborators := toy 9);
  np_column := np_column (Collaborators := toy 9);
  f1_score := f1_score (Collaborators := toy 9);
  roc_curve := roc_curve (Collaborators := toy 9);
  auc := auc (Collaborators := toy 9);
  stratified_kfold_split := stratified_kfold_split (Collaborators := toy 9);
  process_data := λ x y dt tt dp tokens,
    match x with
    | [] => log_call "process_data" (Raise (ValueError "no data"))
    | _ => log_call "process_data" (Ret (x, y))
    end;
  label_rows := λ y, y;
  data_generator := data_generator (Collaborators := toy 9);
  tf_device_enter := tf_device_enter (Collaborators := toy 9);
  tf_device_exit := tf_device_exit (Collaborators := toy 9);
  tf_reset_default_graph := λ b,
    if decide ("predict" ∈ b)
    then (Raise (BackendError "reset_default_graph"), b ++ ["reset_default_graph"])
    else (Ret tt, b ++ ["reset_default_graph"]);
  K_clear_session := K_clear_session (Collaborators := toy 9);
  init_tf_graph := init_tf_graph (Collaborators := toy 9);
  nn_compile := nn_compile (Collaborators := toy 9);
  nn_fit := nn_fit (Collaborators := toy 9);
  nn_predict := nn_predict (Collaborators := toy 9);
  nn_fit_generator := nn_fit_generator (Collaborators := toy 9);
  nn_predict_generator := nn_predict_generator (Collaborators := toy 9)
|}.

Definition frail_evaluator (x : list nat) : Evaluator (C := frail) :=
  mkEvaluator (C := frail) x (one_hot <$> x) 1 "/device:CPU:0"
    false true true 2 (5 # 1000)%Q 5 0 "AUC".

(** ** Symbolic execution *)

Ltac unfold_se :=
  unfold list_len, list_getitem, list_setitem in *;
  unfold bind, ret, raise, lift, getattr, setattr, list_read, dict_getitem,
    dict_setitem, upd_individs, upd_lists, upd_dicts, set_architecture,
    set_training_parameters, set_data_processing in *; simpl in *.

Lemma py_range_1 (n : nat) : 2 ≤ n → py_range 1 n = 1 :: seq 2 (n - 2).
Proof.
  intros Hn. unfold py_range.
  replace (n - 1) with (S (n - 2)) by lia. reflexivity.
Qed.

Lemma choice_range_run (n : nat) (w : World) :
  2 ≤ n →
  choice (py_range 1 n) w = (Ret (1 + rng w (drawn w) mod (n - 1)), next_draw w).
Proof.
  intros Hn. unfold choice.
  rewrite (py_range_1 n Hn). rewrite <- (py_range_1 n Hn).
  unfold py_range. rewrite length_seq.
  rewrite seq_nth; [reflexivity|].
  apply Nat.mod_upper_bound. lia.
Qed.

Lemma choice_range_bounds (n r : nat) :
  2 ≤ n → 1 ≤ 1 + r mod (n - 1) < n.
Proof.
  intros Hn. pose proof (Nat.mod_upper_bound r (n - 1)). lia.
Qed.

Lemma choice_elem {A} (a : list A) (w : World) (x : A) (w' : World) :
  choice a w = (Ret x, w') → x ∈ a ∧ w' = next_draw w.
Proof.
  unfold choice. destruct a as [|y a'] eqn:Ha; [discriminate|].
  rewrite <- Ha. intros H.
  assert (Hlen : length a ≠ 0) by (rewrite Ha; discriminate).
  clear Ha. injection H as <- <-. split; [|reflexivity].
  apply list_elem_of_In, nth_In.
  by apply Nat.mod_upper_bound.
Qed.

Lemma index_of_elem (x : string) (xs : list string) :
  x ∈ xs → ∃ n, index_of x xs = Ret n ∧ xs !! n = Some x.
Proof.
  induction xs as [|y ys IH]; intros Hin.
  - by apply elem_of_nil in Hin.
  - simpl. destruct (decide (y = x)) as [->|Hne].
    + exists 0. done.
    + apply elem_of_cons in Hin as [->|Hin]; [done|].
      destruct (IH Hin) as (n & -> & Hn). exists (S n). done.
Qed.

Lemma slice_body_lookup {A} (xs : list A) (n : nat) (y : A) :
  slice_body xs !! n = Some y → xs !! (S n) = Some y ∧ S n < length xs - 1.
Proof.
  unfold slice_body. intros H.
  apply lookup_take_Some in H as [H Hlt].
  rewrite lookup_drop in H. simpl in H. split; [done|lia].
Qed.

Section PairingRuns.
Variables (w : World) (individ father mother : loc) (I F M : Individ).
Hypothesis HI : individs w !! individ = Some I.
Hypothesis HF : individs w !! father = Some F.
Hypothesis HM : individs w !! mother = Some M.
Hypothesis Hif : individ ≠ father.
Hypothesis Him : individ ≠ mother.

Lemma father_architecture_pairing_run (fd md : gmap string Z) (v : Z) :
  dicts w !! data_processing F = Some fd →
  fd !! "sentences_length" = Some v →
  dicts w !! data_processing M = Some md →
  father_architecture_pairing individ father mother w =
    (Ret individ,
     mkWorld
       (<[individ := mkIndivid (architecture F) (training_parameters M) (data_processing M)]>
          (individs w))
       (lists w)
       (<[data_processing M := <["sentences_length" := v]> md]> (dicts w))
       (rng w) (drawn w)).
Proof.
  intros Hfd Hv Hmd.
  unfold father_architecture_pairing. unfold_se.
  simplify_map_eq. by rewrite !insert_insert_eq.
Qed.

Lemma father_training_pairing_run :
  father_training_pairing individ father mother w =
    (Ret individ,
     mkWorld
       (<[individ := mkIndivid (architecture M) (training_parameters F) (data_processing M)]>
          (individs w))
       (lists w) (dicts w) (rng w) (drawn w)).
Proof.
  unfold father_training_pairing. unfold_se.
  simplify_map_eq. by rewrite !insert_insert_eq.
Qed.

Lemma father_data_processing_pairing_run (fl ml : list Layer) (g : Layer) :
  lists w !! architecture F = Some fl →
  fl !! 0 = Some g →
  lists w !! architecture M = Some ml →
  0 < length ml →
  father_data_processing_pairing individ father mother w =
    (Ret individ,
     mkWorld
       (<[individ := mkIndivid (architecture M) (training_parameters M) (data_processing F)]>
          (individs w))
       (<[architecture M := <[0 := g]> ml]> (lists w))
       (dicts w) (rng w) (drawn w)).
Proof.
  intros Hfl Hg Hml Hlen.
  unfold father_data_processing_pairing. unfold_se.
  simplify_map_eq.
  destruct (decide (0 < length ml)); [|lia].
  by rewrite !insert_insert_eq.
Qed.

Lemma layers_draw_run (fl ml : list Layer) :
  lists w !! architecture F = Some fl →
  lists w !! architecture M = Some ml →
  2 ≤ length fl → 2 ≤ length ml →
  layers_draw father mother w =
    (Ret (1 + rng w (drawn w) mod (length fl - 1),
          1 + rng w (S (drawn w)) mod (length ml - 1)),
     next_draw (next_draw w)).
Proof.
  intros Hfl Hml Hnf Hnm.
  unfold layers_draw. unfold_se. rewrite HF, Hfl.
  rewrite (choice_range_run _ _ Hnf). unfold next_draw at 1 2. simpl.
  rewrite HM. simpl. rewrite Hml. simpl.
  by rewrite (choice_range_run _ _ Hnm).
Qed.

Lemma father_architecture_layers_pairing_run (fl ml : list Layer) (g : Layer) :
  lists w !! architecture F = Some fl →
  lists w !! architecture M = Some ml →
  2 ≤ length fl → 2 ≤ length ml →
  ml !! (1 + rng w (S (drawn w)) mod (length ml - 1)) = Some g →
  father_architecture_layers_pairing individ father mother w =
    (Ret individ,
     mkWorld
       (<[individ := mkIndivid (architecture F) (training_parameters F) (data_processing F)]>
          (individs w))
       (<[architecture F := <[1 + rng w (drawn w) mod (length fl - 1) := g]> fl]> (lists w))
       (dicts w) (rng w) (S (S (drawn w)))).
Proof.
  intros Hfl Hml Hnf Hnm Hg.
  unfold father_architecture_layers_pairing. unfold bind at 1.
  rewrite (layers_draw_run fl ml Hfl Hml Hnf Hnm).
  pose proof (choice_range_bounds (length fl) (rng w (drawn w)) Hnf) as Hc.
  unfold_se. simplify_map_eq.
  destruct (decide _) as [_|Hn]; [|lia].
  simpl. simplify_map_eq.
  by rewrite !insert_insert_eq.
Qed.

Lemma father_architecture_parameter_pairing_empty (fl ml : list Layer) :
  lists w !! architecture F = Some fl →
  lists w !! architecture M = Some ml →
  list_to_set (type <$> slice_body fl) ∩ list_to_set (type <$> slice_body ml)
    = (∅ : gset string) →
  father_architecture_parameter_pairing individ father mother w =
    (Raise choice_empty,
     mkWorld
       (<[individ := mkIndivid (architecture F) (training_parameters F) (data_processing F)]>
          (individs w))
       (lists w) (dicts w) (rng w) (drawn w)).
Proof.
  intros Hfl Hml Hempty.
  unfold father_architecture_parameter_pairing. unfold_se.
  rewrite HF, Hfl, HM, Hml, Hempty.
  destruct (decide _) as [_|Hn]; [|done].
  simplify_map_eq. rewrite elements_empty. simpl.
  by rewrite !insert_insert_eq.
Qed.

Lemma father_architecture_parameter_pairing_run (fl ml : list Layer) :
  lists w !! architecture F = Some fl →
  lists w !! architecture M = Some ml →
  list_to_set (type <$> slice_body fl) ∩ list_to_set (type <$> slice_body ml)
    ≠ (∅ : gset string) →
  ∃ (c a : nat) (old new : Layer),
    index_of (type new) (type <$> slice_body fl) = Ret c ∧
    index_of (type new) (type <$> slice_body ml) = Ret a ∧
    fl !! (c + 1) = Some old ∧ ml !! (a + 1) = Some new ∧
    type old = type new ∧
    c + 1 < length fl - 1 ∧ a + 1 < length ml - 1 ∧
    father_architecture_parameter_pairing individ father mother w =
      (Ret individ,
       mkWorld
         (<[individ := mkIndivid (architecture F) (training_parameters F) (data_processing F)]>
            (individs w))
         (<[architecture F := <[c + 1 := new]> fl]> (lists w))
         (dicts w) (rng w) (S (drawn w))).
Proof.
  intros Hfl Hml Hne.
  set (X := list_to_set (type <$> slice_body fl)
              ∩ list_to_set (type <$> slice_body ml) : gset string) in *.
  assert (∃ t, choice (elements X) w = (Ret t, next_draw w) ∧ t ∈ X)
    as (t & Hch & Ht).
  { destruct (choice (elements X) w) as [o w'] eqn:Hch.
    assert (∃ t, o = Ret t) as [t ->].
    { unfold choice in Hch. destruct (elements X) eqn:HX.
      - apply elements_empty_inv in HX. apply leibniz_equiv in HX. done.
      - injection Hch as <- _. eauto. }
    apply choice_elem in Hch as [Ht ->].
    exists t. split; [done|]. by apply elem_of_elements. }
  apply elem_of_intersection in Ht as [Htf Htm].
  apply elem_of_list_to_set, index_of_elem in Htf as (c & Hc & Hcl).
  apply elem_of_list_to_set, index_of_elem in Htm as (a & Ha & Hal).
  apply list_lookup_fmap_Some in Hcl as (old & Hto & Hold).
  apply list_lookup_fmap_Some in Hal as (new & Htn & Hnew).
  apply slice_body_lookup in Hold as [Hold Hcb].
  apply slice_body_lookup in Hnew as [Hnew Hab].
  exists c, a, old, new. rewrite <- Htn, <- Hto.
  replace (c + 1) with (S c) by lia. replace (a + 1) with (S a) by lia.
  do 7 (split; [done|]).
  unfold father_architecture_parameter_pairing. unfold_se.
  rewrite HF, Hfl, HM, Hml. fold X.
  destruct (decide (X = ∅)) as [HX|_]; [done|].
  rewrite Hch. unfold next_draw. simpl. rewrite Hc, Ha. simpl.
  simplify_map_eq.
  replace (c + 1) with (S c) by lia. replace (a + 1) with (S a) by lia.
  rewrite Hnew. simpl. simplify_map_eq.
  destruct (decide _) as [_|Hn]; [|lia].
  simpl. simplify_map_eq.
  by rewrite !insert_insert_eq.
Qed.
End PairingRuns.
(** ** Properties of the pairing engine *)

Lemma has_genotype_genotype (w : World) (o : loc) (O : Individ) (g : Genotype) :
  has_genotype w o O g → genotype w o = Some g.
Proof.
  intros (HO & Ha & Ht & Hd). unfold genotype.
  rewrite HO, Ha, Ht, Hd. by destruct g.
Qed.

Lemma unshared_ne (F M : Individ) :
  unshared F M →
  architecture F ≠ architecture M ∧
  training_parameters F ≠ data_processing F ∧
  training_parameters F ≠ training_parameters M ∧
  training_parameters F ≠ data_processing M ∧
  data_processing F ≠ training_parameters M ∧
  data_processing F ≠ data_processing M ∧
  training_parameters M ≠ data_processing M.
Proof.
  intros [Ha Hd]. rewrite !NoDup_cons, !not_elem_of_cons in Hd.
  destruct Hd as ((H1 & H2 & H3 & _) & (H4 & H5 & _) & (H6 & _) & _).
  repeat split; assumption.
Qed.

(** C4.  A pairing type outside the five recognized tags makes
    [peform_pairing] return [None]: no exception, and no write to the
    store. *)
Theorem peform_pairing_unrecognized (w : World) (individ father mother : loc)
    (pairing_type : string) :
  pairing_type ∉ recognized_pairing_types →
  peform_pairing individ father mother pairing_type w = (Ret None, w).
Proof.
  intros Hnot. unfold peform_pairing, recognized_pairing_types in *.
  repeat (case_decide; [exfalso; apply Hnot; subst; set_solver|]).
  reflexivity.
Qed.

Lemma peform_pairing_unrecognized_witness :
  peform_pairing 0 1 2 "father_architecture_layer" (w_common (λ _, 0))
  = (Ret None, w_common (λ _, 0)).
Proof.
  apply (peform_pairing_unrecognized (w_common (λ _, 0)) 0 1 2).
  compute_done.
Defined.

(** C1.  When the body genes of the two parents have no layer type in
    common, [father_architecture_parameter] does not return: after the
    three fallback assignments control runs on into
    [np.random.choice(list(intersections))] on an empty list, which raises
    [ValueError].  The child's attributes have been bound to the father's
    gene groups by then. *)
Theorem parameter_pairing_no_common_type (w : World) (individ father mother : loc)
    (I F M : Individ) (fl ml : list Layer) :
  individs w !! individ = Some I →
  individs w !! father = Some F →
  individs w !! mother = Some M →
  individ ≠ father → individ ≠ mother →
  lists w !! architecture F = Some fl →
  lists w !! architecture M = Some ml →
  no_common_type fl ml →
  ∃ w',
    peform_pairing individ father mother "father_architecture_parameter" w
      = (Raise choice_empty, w') ∧
    individs w' !! individ = Some F ∧
    lists w' = lists w ∧ dicts w' = dicts w.
Proof.
  intros HI HF HM Hif Him Hfl Hml Hnone.
  eexists. unfold peform_pairing.
  repeat (case_decide; [discriminate|]).
  case_decide; [|done].
  unfold bind at 1.
  erewrite father_architecture_parameter_pairing_empty by eassumption.
  split; [reflexivity|]. simpl. rewrite lookup_insert_eq.
  by destruct F.
Qed.

Lemma parameter_pairing_no_common_type_witness :
  ∃ w',
    peform_pairing 0 1 2 "father_architecture_parameter" w_disjoint
      = (Raise (ValueError "a must be non-empty"), w') ∧
    individs w' !! 0 = Some father_obj ∧
    lists w' = lists w_disjoint ∧ dicts w' = dicts w_disjoint.
Proof.
  apply (parameter_pairing_no_common_type w_disjoint 0 1 2 shell father_obj mother_obj
           [embedding 100; lstm; dense 3] [embedding 50; cnn 64; dense 2]);
    try reflexivity; try discriminate.
Defined.

(** C6.  [father_architecture] gives the child the father's architecture,
    the mother's training parameters, and the mother's data processing in
    which ['sentences_length'] holds the father's value. *)
Theorem father_architecture_child (w : World) (individ father mother : loc)
    (I F M : Individ) (fg mg : Genotype) (v : Z) :
  individs w !! individ = Some I →
  has_genotype w father F fg →
  has_genotype w mother M mg →
  individ ≠ father → individ ≠ mother →
  training_parameters M ≠ data_processing M →
  g_data_processing fg !! "sentences_length" = Some v →
  ∃ w',
    peform_pairing individ father mother "father_architecture" w
      = (Ret (Some individ), w') ∧
    genotype w' individ =
      Some (mkGenotype (g_architecture fg) (g_training_parameters mg)
              (<["sentences_length" := v]> (g_data_processing mg))) ∧
    (g_data_processing <$> genotype w' individ) ≫= (.!! "sentences_length")
      = g_data_processing fg !! "sentences_length".
Proof.
  intros HI (HF & Hfa & Hft & Hfd) (HM & Hma & Hmt & Hmd) Hif Him Hne Hv.
  eexists. unfold peform_pairing.
  case_decide; [|done].
  unfold bind at 1.
  erewrite father_architecture_pairing_run by eassumption.
  split; [reflexivity|].
  assert (Hchild : genotype
            (mkWorld
               (<[individ := mkIndivid (architecture F) (training_parameters M)
                               (data_processing M)]> (individs w))
               (lists w)
               (<[data_processing M := <["sentences_length" := v]> (g_data_processing mg)]>
                  (dicts w))
               (rng w) (drawn w)) individ
          = Some (mkGenotype (g_architecture fg) (g_training_parameters mg)
                    (<["sentences_length" := v]> (g_data_processing mg)))).
  { unfold genotype. simpl. rewrite lookup_insert_eq. simpl.
    by rewrite Hfa, lookup_insert_ne, Hmt, lookup_insert_eq by done. }
  split; [exact Hchild|].
  rewrite Hchild. simpl. by rewrite lookup_insert_eq, Hv.
Qed.

Lemma father_architecture_child_witness :
  ∃ w',
    peform_pairing 0 1 2 "father_architecture" (w_common (λ _, 0))
      = (Ret (Some 0), w') ∧
    genotype w' 0 =
      Some (mkGenotype father_genes mother_training_dict
              (<["sentences_length" := 100%Z]> mother_data_dict)) ∧
    (g_data_processing <$> genotype w' 0) ≫= (.!! "sentences_length")
      = father_data_dict !! "sentences_length".
Proof.
  apply (father_architecture_child (w_common (λ _, 0)) 0 1 2 shell father_obj mother_obj
           father_genotype mother_genotype 100);
    try reflexivity; try discriminate; repeat split.
Defined.

(** C3, as stated, fails: the mother-side index can be the last index of
    the mother's architecture.  With a mother of three genes and a generator
    whose raw outputs are all 1, [alter_layer] is 2, the index of the
    mother's output gene, and that gene lands in the child's body. *)
Lemma layers_alter_layer_can_be_last :
  (layers_draw 1 2 (w_common (λ _, 1))).1 = Ret (2, 2) ∧
  length mother_genes - 1 = 2 ∧
  last mother_genes = Some (dense 2) ∧
  g_architecture <$>
    genotype (father_architecture_layers_pairing 0 1 2 (w_common (λ _, 1))).2 0
  = Some [embedding 100; lstm; dense 2; dense 3].
Proof. repeat split. Qed.

(** C3, amended.  Both indices are drawn with the same convention:
    [changes_layer] from [[1, len(father.architecture))] and [alter_layer]
    from [[1, len(mother.architecture))].  Neither is ever 0, and every
    index of either range, the last one included, is drawn for some state of
    the generator. *)
Theorem layers_draw_ranges (w : World) (father mother : loc) (F M : Individ)
    (fl ml : list Layer) :
  individs w !! father = Some F →
  individs w !! mother = Some M →
  lists w !! architecture F = Some fl →
  lists w !! architecture M = Some ml →
  2 ≤ length fl → 2 ≤ length ml →
  (∃ c a, (layers_draw father mother w).1 = Ret (c, a) ∧
          1 ≤ c < length fl ∧ 1 ≤ a < length ml) ∧
  (∀ c a, 1 ≤ c < length fl → 1 ≤ a < length ml →
          ∃ r, (layers_draw father mother (with_rng r w)).1 = Ret (c, a)).
Proof.
  intros HF HM Hfl Hml Hnf Hnm. split.
  - erewrite layers_draw_run by eassumption.
    eexists _, _. split; [reflexivity|].
    split; by apply choice_range_bounds.
  - intros c a Hc Ha.
    exists (λ k, if decide (k = drawn w) then c - 1 else a - 1).
    erewrite layers_draw_run by eassumption. simpl.
    rewrite decide_True by done. rewrite decide_False by lia.
    rewrite !Nat.mod_small by lia.
    do 2 f_equal; lia.
Qed.

Lemma layers_draw_ranges_witness :
  (∃ c a, (layers_draw 1 2 (w_common (λ _, 1))).1 = Ret (c, a) ∧
          1 ≤ c < 4 ∧ 1 ≤ a < 3) ∧
  (∀ c a, 1 ≤ c < 4 → 1 ≤ a < 3 →
          ∃ r, (layers_draw 1 2 (with_rng r (w_common (λ _, 1)))).1 = Ret (c, a)).
Proof.
  apply (layers_draw_ranges (w_common (λ _, 1)) 1 2 father_obj mother_obj
           father_genes mother_genes); try reflexivity; simpl; lia.
Defined.

(** C2, as stated, fails for four of the five strategies: the child's
    attribute is bound to the parent's own list or dict, so the item
    assignment that follows writes into the parent.  On the parents of
    [w_common]: [father_architecture] changes the mother's data processing,
    [father_architecture_layers] and [father_architecture_parameter] change
    the father's architecture, [father_data_processing] changes the mother's
    architecture. *)
Lemma pairing_writes_into_parents :
  let w := w_common (λ _, 1) in
  ((peform_pairing 0 1 2 "father_architecture" w).1 = Ret (Some 0) ∧
   genotype (peform_pairing 0 1 2 "father_architecture" w).2 2 ≠ genotype w 2) ∧
  ((peform_pairing 0 1 2 "father_architecture_layers" w).1 = Ret (Some 0) ∧
   genotype (peform_pairing 0 1 2 "father_architecture_layers" w).2 1 ≠ genotype w 1) ∧
  ((peform_pairing 0 1 2 "father_architecture_parameter" w).1 = Ret (Some 0) ∧
   genotype (peform_pairing 0 1 2 "father_architecture_parameter" w).2 1 ≠ genotype w 1) ∧
  ((peform_pairing 0 1 2 "father_data_processing" w).1 = Ret (Some 0) ∧
   genotype (peform_pairing 0 1 2 "father_data_processing" w).2 2 ≠ genotype w 2).
Proof.
  intros w. repeat split; try reflexivity; intros H.
  - apply (f_equal (λ o, g ← o; g_data_processing g !! "sentences_length")) in H.
    vm_compute in H. discriminate.
  - apply (f_equal (fmap g_architecture)) in H. vm_compute in H. discriminate.
  - apply (f_equal (fmap g_architecture)) in H. vm_compute in H. discriminate.
  - apply (f_equal (fmap g_architecture)) in H. vm_compute in H. discriminate.
Qed.

Ltac frame_lookups :=
  unfold genotype; simpl;
  repeat first
    [ rewrite lookup_insert_eq
    | rewrite lookup_insert_ne by done
    | match goal with
      | H : _ !! _ = Some _ |- _ => rewrite H
      end ];
  simpl.

(** C2, amended.  For parents that are objects other than the target and
    share no gene group with each other: after [peform_pairing] returns the
    child, both parents' training parameters are as before;
    [father_training] changes neither parent; [father_architecture] leaves
    the father as he was and sets the mother's
    [data_processing['sentences_length']] to the father's value;
    [father_architecture_layers] and [father_architecture_parameter] leave
    the mother as she was and replace one gene of the father's architecture
    by a gene of the mother's; [father_data_processing] leaves the father as
    he was and replaces gene 0 of the mother's architecture by the
    father's.  Everything else in the parents' genotypes is unchanged. *)
Theorem pairing_parent_frame (w w' : World) (individ father mother : loc)
    (pairing_type : string) (I F M : Individ) (fg mg : Genotype) :
  individs w !! individ = Some I →
  has_genotype w father F fg →
  has_genotype w mother M mg →
  individ ≠ father → individ ≠ mother →
  unshared F M →
  well_formed fg → well_formed mg →
  peform_pairing individ father mother pairing_type w = (Ret (Some individ), w') →
  ∃ fg' mg',
    genotype w' father = Some fg' ∧ genotype w' mother = Some mg' ∧
    parent_frame pairing_type fg mg fg' mg'.
Proof.
  intros HI (HF & Hfa & Hft & Hfd) (HM & Hma & Hmt & Hmd) Hif Him Hun
    [Hfn [v Hv]] [Hmn _] Hrun.
  apply unshared_ne in Hun as (Ha & Hn1 & Hn2 & Hn3 & Hn4 & Hn5 & Hn6).
  destruct fg as [fl ft fd], mg as [ml mt md]. unfold parent_frame. simpl in *.
  unfold peform_pairing in Hrun. unfold bind in Hrun.
  repeat case_decide; try subst pairing_type.
  - (* father_architecture *)
    erewrite father_architecture_pairing_run in Hrun by eassumption.
    injection Hrun as <-.
    exists (mkGenotype fl ft fd), (mkGenotype ml mt (<["sentences_length" := v]> md)).
    split; [by frame_lookups|]. split; [by frame_lookups|].
    split_and!; try done. intros _. split_and!; try done. by exists v.
  - (* father_architecture_layers *)
    destruct (lookup_lt_is_Some_2 ml
                (1 + rng w (S (drawn w)) mod (length ml - 1))) as [new Hnew].
    { by apply choice_range_bounds. }
    erewrite father_architecture_layers_pairing_run in Hrun by eassumption.
    injection Hrun as <-.
    eexists (mkGenotype _ ft fd), (mkGenotype ml mt md).
    split; [by frame_lookups|]. split; [by frame_lookups|].
    split_and!; try done. intros _. split_and!; try done.
    eexists _, _, new.
    split; [by apply choice_range_bounds|].
    split; [by apply choice_range_bounds|]. done.
  - (* father_architecture_parameter *)
    unfold no_common_type in *.
    destruct (decide (list_to_set (type <$> slice_body fl)
                        ∩ list_to_set (type <$> slice_body ml) = (∅ : gset string)))
      as [Hnone|Hsome].
    + erewrite father_architecture_parameter_pairing_empty in Hrun by eassumption.
      discriminate.
    + destruct (father_architecture_parameter_pairing_run w individ father mother
                  I F M HI HF HM Hif Him fl ml Hfa Hma Hsome)
        as (c & a & old & new & _ & _ & Hold & Hnew & Hty & Hc & Hal & Hrun').
      rewrite Hrun' in Hrun. injection Hrun as <-.
      eexists (mkGenotype _ ft fd), (mkGenotype ml mt md).
      split; [by frame_lookups|]. split; [by frame_lookups|].
      split_and!; try done. intros _. split_and!; try done.
      exists (c + 1), (a + 1), old, new.
      split_and!; try done; lia.
  - (* father_training *)
    erewrite father_training_pairing_run in Hrun by eassumption.
    injection Hrun as <-.
    exists (mkGenotype fl ft fd), (mkGenotype ml mt md).
    split; [by frame_lookups|]. split; [by frame_lookups|].
    split_and!; done.
  - (* father_data_processing *)
    destruct (lookup_lt_is_Some_2 fl 0) as [g0 Hg0]; [lia|].
    erewrite father_data_processing_pairing_run in Hrun by (eassumption || lia).
    injection Hrun as <-.
    eexists (mkGenotype fl ft fd), (mkGenotype _ mt md).
    split; [by frame_lookups|]. split; [by frame_lookups|].
    split_and!; try done. intros _. split_and!; try done. by exists g0.
  - discriminate.
Qed.

Lemma pairing_parent_frame_witness :
  ∃ fg' mg',
    genotype (peform_pairing 0 1 2 "father_architecture_layers" (w_common (λ _, 1))).2 1
      = Some fg' ∧
    genotype (peform_pairing 0 1 2 "father_architecture_layers" (w_common (λ _, 1))).2 2
      = Some mg' ∧
    parent_frame "father_architecture_layers" father_genotype mother_genotype fg' mg'.
Proof.
  apply (pairing_parent_frame (w_common (λ _, 1)) _ 0 1 2 "father_architecture_layers"
           shell father_obj mother_obj father_genotype mother_genotype);
    try reflexivity; try discriminate.
  - repeat split.
  - repeat split.
  - split; [discriminate|]. compute_done.
  - split; [simpl; lia|]. by exists 100%Z.
  - split; [simpl; lia|]. by exists 50%Z.
Defined.

(** ** Properties of the factory *)

(** [cradle.py]: the three branches. *)
Lemma cradle_text (epochs : Z) (task_type : string) parents freeze kwargs :
  Cradle.cradle epochs "text" task_type parents freeze kwargs
  = Ret (IndividText (mkIndividArgs epochs task_type parents freeze kwargs)).
Proof. reflexivity. Qed.

Lemma cradle_image (epochs : Z) (task_type : string) parents freeze kwargs :
  Cradle.cradle epochs "image" task_type parents freeze kwargs
  = Ret (IndividImage (mkIndividArgs epochs task_type parents freeze kwargs)).
Proof. reflexivity. Qed.

Lemma cradle_unrecognized (epochs : Z) (data_type task_type : string)
    parents freeze kwargs :
  data_type ≠ "text" → data_type ≠ "image" →
  Cradle.cradle epochs data_type task_type parents freeze kwargs
  = Raise (ValueError Cradle.incorrect_data_type).
Proof.
  intros Ht Hi. unfold Cradle.cradle.
  by rewrite !decide_False by done.
Qed.

Lemma incorrect_data_type_names_allowed :
  mentions Cradle.incorrect_data_type (dq +:+ "text" +:+ dq) = true ∧
  mentions Cradle.incorrect_data_type (dq +:+ "image" +:+ dq) = true.
Proof. split; reflexivity. Qed.

(** [architecture_interface.py]: any other data type yields [None]. *)
Lemma interface_cradle_unrecognized (stage : Z) (data_type task_type : string)
    parents freeze kwargs :
  data_type ≠ "text" → data_type ≠ "image" →
  ArchitectureInterface.cradle stage data_type task_type parents freeze kwargs
  = Ret None.
Proof.
  intros Ht Hi. unfold ArchitectureInterface.cradle.
  by rewrite !decide_False by done.
Qed.

(** C5.  The two factories agree on ['text'] and ['image'] and part on
    every other data type, here ['audio']: [cradle.py] raises the
    [ValueError] that names ["text"] and ["image"], while
    [architecture_interface.py] returns [None] without raising. *)
Theorem cradle_audio :
  Cradle.cradle 0 "audio" "classification" None None []
    = Raise (ValueError Cradle.incorrect_data_type) ∧
  mentions Cradle.incorrect_data_type (dq +:+ "text" +:+ dq) = true ∧
  mentions Cradle.incorrect_data_type (dq +:+ "image" +:+ dq) = true ∧
  ArchitectureInterface.cradle 0 "audio" "classification" None None [] = Ret None ∧
  ArchitectureInterface.cradle 0 "text" "classification" None None []
    = Ret (Some (IndividText (mkIndividArgs 0 "classification" None None []))) ∧
  ArchitectureInterface.cradle 0 "image" "classification" None None []
    = Ret (Some (IndividImage (mkIndividArgs 0 "classification" None None []))).
Proof. repeat split. Qed.

(** ** Properties of the evaluator *)

Section EvaluatorProperties.
Context {C : Collaborators}.

(** *** The [device] setter *)


(** *** Loops and scopes *)


Lemma take_rows_whole {A} (a : list A) (k : nat) :
  take_rows a (seq k (length a - k)) = Ret (drop k a).
Proof.
  remember (length a - k) as n eqn:Hn. revert k Hn.
  induction n as [|n IH]; intros k Hn; simpl.
  - by rewrite drop_ge by lia.
  - destruct (lookup_lt_is_Some_2 a k) as [v Hv]; [lia|].
    rewrite Hv, (IH (S k)) by lia.
    by rewrite (drop_S _ _ _ Hv).
Qed.

(** *** Folds *)

Lemma kfold_generator_fit_single (ev : Evaluator) (y : list (list real)) (b : backend) :
  _kfold_number ev = 1%Z →
  kfold_generator_fit ev y b = (Ret (whole_range_fold ev), b).
Proof.
  intros H1. unfold kfold_generator_fit. by rewrite decide_False by (by intros []).
Qed.

Lemma kfold_generator_fit_generator_single (ev : Evaluator) (b : backend) :
  _kfold_number ev = 1%Z →
  kfold_generator_fit_generator ev b = (Ret (whole_range_fold ev), b).
Proof.
  intros H1. unfold kfold_generator_fit_generator.
  by rewrite decide_False by (by intros []).
Qed.

(** C7.  With [kfold_number == 1] both [fit] and [fit_generator] loop
    over one fold, whose train and test index lists are the same list
    [0, ..., len(x) - 1]; each function is then one run of its loop body
    on that fold, followed by the reduction. *)
Theorem single_fold_covers_all (ev : Evaluator) (network : Network) (b : backend) :
  _kfold_number ev = 1%Z →
  let whole := seq 0 (length (_x ev)) in
  (∀ y, kfold_generator_fit ev y b = (Ret [(whole, whole)], b)) ∧
  kfold_generator_fit_generator ev b = (Ret [(whole, whole)], b) ∧
  (∀ i, i ∈ whole ↔ i < length (_x ev)) ∧
  take_rows (_x ev) whole = Ret (_x ev) ∧
  fit ev network b =
    (let! xy := process_data (_x ev) (_y ev) (data_type network) (task_type network)
                  (net_data_processing network) (_create_tokens ev) in
     let! out := fit_fold ev network xy.1 xy.2 ([], []) (whole, whole) in
     result_of ev network out) b ∧
  fit_generator ev network b =
    (let! out := fit_generator_fold ev network ([], []) (whole, whole) in
     result_of ev network out) b.
Proof.
  intros H1 whole.
  assert (Hw : whole_range_fold ev = [(whole, whole)]).
  { unfold whole_range_fold, py_range, whole. by rewrite Nat.sub_0_r. }
  split_and!.
  - intros y. by rewrite kfold_generator_fit_single, Hw.
  - by rewrite kfold_generator_fit_generator_single, Hw.
  - intros i. unfold whole. rewrite elem_of_seq. lia.
  - unfold whole. rewrite <- (Nat.sub_0_r (length (_x ev))) at 1.
    by rewrite take_rows_whole.
  - unfold fit, bind.
    destruct (process_data _ _ _ _ _ _ b) as [[xy|e] b0]; [|done].
    rewrite kfold_generator_fit_single, Hw by done.
    simpl. unfold bind, ret.
    by destruct (fit_fold _ _ _ _ _ _ b0) as [[out|e] b1].
  - unfold fit_generator, bind.
    rewrite kfold_generator_fit_generator_single, Hw by done.
    simpl. unfold bind, ret.
    by destruct (fit_generator_fold _ _ _ _ b) as [[out|e] b1].
Qed.

(** *** Failure of a fold *)






(** *** The AUC reduction *)

End EvaluatorProperties.


Lemma single_fold_covers_all_witness :
  let ev := toy_evaluator 9 1 in
  let whole := seq 0 (length (_x ev)) in
  (∀ y, kfold_generator_fit ev y [] = (Ret [(whole, whole)], [])) ∧
  kfold_generator_fit_generator ev [] = (Ret [(whole, whole)], []) ∧
  (∀ i, i ∈ whole ↔ i < length (_x ev)) ∧
  take_rows (_x ev) whole = Ret (_x ev) ∧
  fit ev toy_network [] =
    (let! xy := process_data (_x ev) (_y ev) (data_type toy_network)
                  (task_type toy_network) (net_data_processing toy_network)
                  (_create_tokens ev) in
     let! out := fit_fold ev toy_network xy.1 xy.2 ([], []) (whole, whole) in
     result_of ev toy_network out) [] ∧
  fit_generator ev toy_network [] =
    (let! out := fit_generator_fold ev toy_network ([], []) (whole, whole) in
     result_of ev toy_network out) [].
Proof.
  apply (single_fold_covers_all (toy_evaluator 9 1) toy_network []).
  reflexivity.
Defined.


(** ** Further properties of the pairing engine *)

(** *** What no strategy does to the store *)

Lemma steady_refl (w : World) : steady w w.
Proof. unfold steady. by split_and!. Qed.

Lemma steady_trans (w1 w2 w3 : World) : steady w1 w2 → steady w2 w3 → steady w1 w3.
Proof.
  intros (Hi & Hl & Hd & Hk & Hr & Hn) (Hi' & Hl' & Hd' & Hk' & Hr' & Hn').
  unfold steady. split_and!.
  - intros o. by rewrite Hi', Hi.
  - intros l. by rewrite Hl', Hl.
  - intros d. by rewrite Hd', Hd.
  - intros d k Hne. by rewrite Hk', Hk.
  - by rewrite Hr', Hr.
  - lia.
Qed.

Lemma keeps_steady_ret {A} (a : A) : keeps_steady (ret a).
Proof. intros w. apply steady_refl. Qed.

Lemma keeps_steady_raise {A} (e : exn) : keeps_steady (raise (A := A) e).
Proof. intros w. apply steady_refl. Qed.

Lemma keeps_steady_lift {A} (o : outcome A) : keeps_steady (lift o).
Proof. intros w. apply steady_refl. Qed.

Lemma keeps_steady_bind {A B} (m : SE World A) (k : A → SE World B) :
  keeps_steady m → (∀ a, keeps_steady (k a)) → keeps_steady (bind m k).
Proof.
  intros Hm Hk w. unfold bind. specialize (Hm w).
  destruct (m w) as [[a|e] w1]; simpl in *; [|done].
  eapply steady_trans; [exact Hm|apply Hk].
Qed.

Lemma keeps_steady_getattr (attr : Individ → loc) (o : loc) :
  keeps_steady (getattr attr o).
Proof.
  intros w. unfold getattr. destruct (individs w !! o); apply steady_refl.
Qed.

Lemma keeps_steady_setattr (upd : loc → Individ → Individ) (o v : loc) :
  keeps_steady (setattr upd o v).
Proof.
  intros w. unfold setattr. destruct (individs w !! o) as [i|] eqn:Ho; simpl;
    [|apply steady_refl].
  unfold steady. simpl. split_and!; try done.
  intros o'. rewrite lookup_insert. case_decide; [subst|done].
  rewrite Ho. split; eauto.
Qed.

Lemma keeps_steady_list_read (l : loc) : keeps_steady (list_read l).
Proof.
  intros w. unfold list_read. destruct (lists w !! l); apply steady_refl.
Qed.

Lemma keeps_steady_list_getitem (l : loc) (i : nat) : keeps_steady (list_getitem l i).
Proof.
  unfold list_getitem. apply keeps_steady_bind; [apply keeps_steady_list_read|].
  intros xs. destruct (xs !! i); [apply keeps_steady_ret|apply keeps_steady_raise].
Qed.

Lemma keeps_steady_list_len (l : loc) : keeps_steady (list_len l).
Proof.
  unfold list_len. apply keeps_steady_bind; [apply keeps_steady_list_read|].
  intros xs. apply keeps_steady_ret.
Qed.

Lemma keeps_steady_list_setitem (l : loc) (i : nat) (x : Layer) :
  keeps_steady (list_setitem l i x).
Proof.
  intros w. unfold list_setitem, bind, list_read.
  destruct (lists w !! l) as [xs|] eqn:Hl; simpl; [|apply steady_refl].
  case_decide; simpl; [|apply steady_refl].
  unfold steady. simpl. split_and!; try done.
  intros l'. rewrite lookup_insert. case_decide; [subst|done].
  rewrite Hl. simpl. by rewrite length_insert.
Qed.

Lemma keeps_steady_dict_getitem (d : loc) (k : string) : keeps_steady (dict_getitem d k).
Proof.
  intros w. unfold dict_getitem.
  destruct (dicts w !! d) as [m|]; [destruct (m !! k)|]; apply steady_refl.
Qed.

Lemma keeps_steady_dict_setitem (d : loc) (v : Z) :
  keeps_steady (dict_setitem d "sentences_length" v).
Proof.
  intros w. unfold dict_setitem.
  destruct (dicts w !! d) as [m|] eqn:Hd; simpl; [|apply steady_refl].
  unfold steady. simpl. split_and!; try done.
  - intros d'. rewrite lookup_insert. case_decide; [subst|done].
    rewrite Hd. split; eauto.
  - intros d' k Hne. rewrite lookup_insert. case_decide; [subst|done].
    rewrite Hd. simpl. by rewrite lookup_insert_ne.
Qed.

Lemma keeps_steady_choice {A} (a : list A) : keeps_steady (choice a).
Proof.
  intros w. unfold choice. destruct a; simpl; [apply steady_refl|].
  unfold steady. simpl. split_and!; try done. lia.
Qed.

Create HintDb steady.
#[local] Hint Resolve keeps_steady_ret keeps_steady_raise keeps_steady_lift
  keeps_steady_getattr keeps_steady_setattr keeps_steady_list_read
  keeps_steady_list_getitem keeps_steady_list_len keeps_steady_list_setitem
  keeps_steady_dict_getitem keeps_steady_dict_setitem keeps_steady_choice : steady.

Ltac steady_steps :=
  repeat first
    [ solve [auto with steady]
    | apply keeps_steady_bind; [|intros ?]
    | case_decide ].

Lemma keeps_steady_father_architecture_pairing (individ father mother : loc) :
  keeps_steady (father_architecture_pairing individ father mother).
Proof. unfold father_architecture_pairing. steady_steps. Qed.

Lemma keeps_steady_layers_draw (father mother : loc) :
  keeps_steady (layers_draw father mother).
Proof. unfold layers_draw. steady_steps. Qed.

Lemma keeps_steady_father_architecture_layers_pairing (individ father mother : loc) :
  keeps_steady (father_architecture_layers_pairing individ father mother).
Proof.
  unfold father_architecture_layers_pairing.
  apply keeps_steady_bind; [apply keeps_steady_layers_draw|intros ?].
  cbv zeta. steady_steps.
Qed.

Lemma keeps_steady_father_architecture_parameter_pairing (individ father mother : loc) :
  keeps_steady (father_architecture_parameter_pairing individ father mother).
Proof. unfold father_architecture_parameter_pairing. steady_steps. Qed.

Lemma keeps_steady_father_data_processing_pairing (individ father mother : loc) :
  keeps_steady (father_data_processing_pairing individ father mother).
Proof. unfold father_data_processing_pairing. steady_steps. Qed.

Lemma keeps_steady_father_training_pairing (individ father mother : loc) :
  keeps_steady (father_training_pairing individ father mother).
Proof. unfold father_training_pairing. steady_steps. Qed.

(** X1.  Whatever its arguments, and whether it returns or raises,
    [peform_pairing] creates and destroys no object, leaves every list at
    its length, leaves every dict entry under a key other than
    ['sentences_length'] as it was, and only moves the random generator
    forward. *)
Theorem peform_pairing_steady (individ father mother : loc) (pairing_type : string)
    (w : World) :
  steady w (peform_pairing individ father mother pairing_type w).2.
Proof.
  revert w. change (keeps_steady (peform_pairing individ father mother pairing_type)).
  unfold peform_pairing.
  repeat case_decide;
    try (apply keeps_steady_bind; [|intros ?; apply keeps_steady_ret]);
    auto using keeps_steady_ret, keeps_steady_father_architecture_pairing,
      keeps_steady_father_architecture_layers_pairing,
      keeps_steady_father_architecture_parameter_pairing,
      keeps_steady_father_data_processing_pairing,
      keeps_steady_father_training_pairing.
Qed.

(** *** The children *)

Lemma genotype_lookup (w : World) (o : loc) (O : Individ)
    (a : list Layer) (t d : gmap string Z) :
  individs w !! o = Some O →
  lists w !! architecture O = Some a →
  dicts w !! training_parameters O = Some t →
  dicts w !! data_processing O = Some d →
  genotype w o = Some (mkGenotype a t d).
Proof. intros HO Ha Ht Hd. unfold genotype. by rewrite HO, Ha, Ht, Hd. Qed.

(** X2.  [father_training] gives the child the mother's architecture and
    data processing and the father's training parameters, for architectures
    of any length; it writes into no list and no dict and draws no random
    number. *)
Theorem father_training_child (w : World) (individ father mother : loc)
    (I F M : Individ) (fg mg : Genotype) :
  individs w !! individ = Some I →
  has_genotype w father F fg →
  has_genotype w mother M mg →
  individ ≠ father → individ ≠ mother →
  ∃ w',
    peform_pairing individ father mother "father_training" w = (Ret (Some individ), w') ∧
    genotype w' individ =
      Some (mkGenotype (g_architecture mg) (g_training_parameters fg)
              (g_data_processing mg)) ∧
    lists w' = lists w ∧ dicts w' = dicts w ∧ drawn w' = drawn w.
Proof.
  intros HI (HF & Hfa & Hft & Hfd) (HM & Hma & Hmt & Hmd) Hif Him.
  eexists. unfold peform_pairing.
  repeat (case_decide; [discriminate|]). case_decide; [|done].
  unfold bind at 1. erewrite father_training_pairing_run by eassumption.
  split; [reflexivity|]. split; [|done].
  apply (genotype_lookup _ _ (mkIndivid (architecture M) (training_parameters F)
                                (data_processing M))); simpl; try done.
  by rewrite lookup_insert_eq.
Qed.

Lemma father_training_child_witness :
  ∃ w',
    peform_pairing 0 1 2 "father_training" (w_common (λ _, 0)) = (Ret (Some 0), w') ∧
    genotype w' 0 =
      Some (mkGenotype mother_genes father_training_dict mother_data_dict) ∧
    lists w' = lists (w_common (λ _, 0)) ∧ dicts w' = dicts (w_common (λ _, 0)) ∧
    drawn w' = 0.
Proof.
  apply (father_training_child (w_common (λ _, 0)) 0 1 2 shell father_obj mother_obj
           father_genotype mother_genotype);
    try reflexivity; try discriminate; repeat split.
Defined.

(** X3.  [father_data_processing] gives the child the mother's architecture
    with gene 0 replaced by the father's gene 0: the same length, the
    mother's gene at every other index; and the mother's training
    parameters and the father's data processing. *)
Theorem father_data_processing_child (w : World) (individ father mother : loc)
    (I F M : Individ) (fg mg : Genotype) (g0 : Layer) :
  individs w !! individ = Some I →
  has_genotype w father F fg →
  has_genotype w mother M mg →
  individ ≠ father → individ ≠ mother →
  g_architecture fg !! 0 = Some g0 →
  0 < length (g_architecture mg) →
  ∃ w' child,
    peform_pairing individ father mother "father_data_processing" w
      = (Ret (Some individ), w') ∧
    genotype w' individ = Some child ∧
    length (g_architecture child) = length (g_architecture mg) ∧
    g_architecture child !! 0 = Some g0 ∧
    (∀ i, 0 < i → g_architecture child !! i = g_architecture mg !! i) ∧
    g_training_parameters child = g_training_parameters mg ∧
    g_data_processing child = g_data_processing fg.
Proof.
  intros HI (HF & Hfa & Hft & Hfd) (HM & Hma & Hmt & Hmd) Hif Him Hg0 Hlen.
  eexists _, (mkGenotype (<[0 := g0]> (g_architecture mg)) (g_training_parameters mg)
                (g_data_processing fg)).
  unfold peform_pairing.
  repeat (case_decide; [discriminate|]). case_decide; [|done].
  unfold bind at 1. erewrite father_data_processing_pairing_run by eassumption.
  split; [reflexivity|]. simpl. split_and!; try done.
  - apply (genotype_lookup _ _ (mkIndivid (architecture M) (training_parameters M)
                                  (data_processing F))); simpl; try done;
      by rewrite lookup_insert_eq.
  - by rewrite length_insert.
  - by rewrite list_lookup_insert_eq.
  - intros i Hi. rewrite list_lookup_insert_ne; [done|lia].
Qed.

Lemma father_data_processing_child_witness :
  ∃ w' child,
    peform_pairing 0 1 2 "father_data_processing" (w_common (λ _, 0))
      = (Ret (Some 0), w') ∧
    genotype w' 0 = Some child ∧
    length (g_architecture child) = 3 ∧
    g_architecture child !! 0 = Some (embedding 100) ∧
    (∀ i, 0 < i → g_architecture child !! i = mother_genes !! i) ∧
    g_training_parameters child = mother_training_dict ∧
    g_data_processing child = father_data_dict.
Proof.
  apply (father_data_processing_child (w_common (λ _, 0)) 0 1 2 shell father_obj
           mother_obj father_genotype mother_genotype (embedding 100));
    try reflexivity; try discriminate; try (repeat split; fail).
  simpl. lia.
Defined.

(** X4.  [father_data_processing] on an empty architecture: when the
    father's or the mother's architecture has no gene, the call raises
    [IndexError]; the three attributes of the child have been rebound by
    then, and no list and no dict has been written. *)
Theorem father_data_processing_empty (w : World) (individ father mother : loc)
    (I F M : Individ) (fl ml : list Layer) :
  individs w !! individ = Some I →
  individs w !! father = Some F →
  individs w !! mother = Some M →
  individ ≠ father → individ ≠ mother →
  lists w !! architecture F = Some fl →
  lists w !! architecture M = Some ml →
  fl = [] ∨ ml = [] →
  ∃ w',
    peform_pairing individ father mother "father_data_processing" w
      = (Raise IndexError, w') ∧
    individs w' !! individ
      = Some (mkIndivid (architecture M) (training_parameters M) (data_processing F)) ∧
    lists w' = lists w ∧ dicts w' = dicts w.
Proof.
  intros HI HF HM Hif Him Hfl Hml Hempty.
  unfold peform_pairing.
  repeat (case_decide; [discriminate|]). case_decide; [|done].
  unfold father_data_processing_pairing. unfold_se.
  simplify_map_eq.
  destruct fl as [|g0 fl]; simpl.
  - eexists. split; [reflexivity|]. simpl. by rewrite lookup_insert_eq.
  - destruct Hempty as [Hnil | ->]; [done|]. simplify_map_eq.
    eexists. split; [reflexivity|]. simpl. by rewrite lookup_insert_eq.
Qed.

Lemma father_data_processing_empty_witness :
  ∃ w',
    peform_pairing 0 1 2 "father_data_processing" (family father_genes [] (λ _, 0))
      = (Raise IndexError, w') ∧
    individs w' !! 0 = Some (mkIndivid 30 31 22) ∧
    lists w' = lists (family father_genes [] (λ _, 0)) ∧
    dicts w' = dicts (family father_genes [] (λ _, 0)).
Proof.
  apply (father_data_processing_empty (family father_genes [] (λ _, 0)) 0 1 2
           shell father_obj mother_obj father_genes []);
    try reflexivity; try discriminate.
  by right.
Defined.

(** X5.  [father_architecture_layers] gives the child an architecture of
    the father's length that holds a gene of the mother's, taken at an
    index of 1 or more, at one index [c] of 1 or more, and the father's
    gene at every other index, gene 0 included; training parameters and
    data processing are the father's. *)
Theorem father_architecture_layers_child (w : World) (individ father mother : loc)
    (I F M : Individ) (fg mg : Genotype) :
  individs w !! individ = Some I →
  has_genotype w father F fg →
  has_genotype w mother M mg →
  individ ≠ father → individ ≠ mother →
  2 ≤ length (g_architecture fg) → 2 ≤ length (g_architecture mg) →
  ∃ w' child c a new,
    peform_pairing individ father mother "father_architecture_layers" w
      = (Ret (Some individ), w') ∧
    genotype w' individ = Some child ∧
    1 ≤ c < length (g_architecture fg) ∧
    1 ≤ a < length (g_architecture mg) ∧
    g_architecture mg !! a = Some new ∧
    length (g_architecture child) = length (g_architecture fg) ∧
    g_architecture child !! c = Some new ∧
    (∀ i, i ≠ c → g_architecture child !! i = g_architecture fg !! i) ∧
    g_training_parameters child = g_training_parameters fg ∧
    g_data_processing child = g_data_processing fg.
Proof.
  intros HI (HF & Hfa & Hft & Hfd) (HM & Hma & Hmt & Hmd) Hif Him Hnf Hnm.
  set (c := 1 + rng w (drawn w) mod (length (g_architecture fg) - 1)).
  set (a := 1 + rng w (S (drawn w)) mod (length (g_architecture mg) - 1)).
  assert (Hc : 1 ≤ c < length (g_architecture fg)) by by apply choice_range_bounds.
  assert (Ha : 1 ≤ a < length (g_architecture mg)) by by apply choice_range_bounds.
  destruct (lookup_lt_is_Some_2 (g_architecture mg) a) as [new Hnew]; [lia|].
  exists (mkWorld
            (<[individ := mkIndivid (architecture F) (training_parameters F)
                            (data_processing F)]> (individs w))
            (<[architecture F := <[c := new]> (g_architecture fg)]> (lists w))
            (dicts w) (rng w) (S (S (drawn w)))),
         (mkGenotype (<[c := new]> (g_architecture fg)) (g_training_parameters fg)
            (g_data_processing fg)), c, a, new.
  unfold peform_pairing.
  case_decide; [discriminate|]. case_decide; [|done].
  unfold bind at 1.
  erewrite father_architecture_layers_pairing_run by eassumption.
  split; [reflexivity|]. simpl. split_and!; try done; try lia.
  - apply (genotype_lookup _ _ (mkIndivid (architecture F) (training_parameters F)
                                  (data_processing F))); simpl; try done;
      by rewrite lookup_insert_eq.
  - by rewrite length_insert.
  - rewrite list_lookup_insert_eq; [done|lia].
  - intros i Hi. by rewrite list_lookup_insert_ne.
Qed.

Lemma father_architecture_layers_child_witness :
  ∃ w' child c a new,
    peform_pairing 0 1 2 "father_architecture_layers" (w_common (λ _, 0))
      = (Ret (Some 0), w') ∧
    genotype w' 0 = Some child ∧
    1 ≤ c < 4 ∧ 1 ≤ a < 3 ∧
    mother_genes !! a = Some new ∧
    length (g_architecture child) = 4 ∧
    g_architecture child !! c = Some new ∧
    (∀ i, i ≠ c → g_architecture child !! i = father_genes !! i) ∧
    g_training_parameters child = father_training_dict ∧
    g_data_processing child = father_data_dict.
Proof.
  apply (father_architecture_layers_child (w_common (λ _, 0)) 0 1 2 shell father_obj
           mother_obj father_genotype mother_genotype);
    try reflexivity; try discriminate; try (repeat split; fail); simpl; lia.
Defined.

(** X6.  [father_architecture_layers] on a parent without a second gene:
    when the father's or the mother's architecture has fewer than two genes
    there is no index to draw, [np.random.choice] raises [ValueError], and
    nothing has been written: no attribute, no list, no dict. *)
Theorem father_architecture_layers_short (w : World) (individ father mother : loc)
    (F M : Individ) (fl ml : list Layer) :
  individs w !! father = Some F →
  individs w !! mother = Some M →
  lists w !! architecture F = Some fl →
  lists w !! architecture M = Some ml →
  length fl < 2 ∨ length ml < 2 →
  ∃ w',
    peform_pairing individ father mother "father_architecture_layers" w
      = (Raise choice_empty, w') ∧
    individs w' = individs w ∧ lists w' = lists w ∧ dicts w' = dicts w.
Proof.
  intros HF HM Hfl Hml Hshort.
  unfold peform_pairing.
  case_decide; [discriminate|]. case_decide; [|done].
  unfold father_architecture_layers_pairing, layers_draw. unfold_se.
  rewrite HF, Hfl.
  destruct (decide (length fl < 2)) as [Hf|Hf].
  - replace (py_range 1 (length fl)) with (@nil nat)
      by (unfold py_range; by replace (length fl - 1) with 0 by lia).
    simpl. by eexists.
  - rewrite choice_range_run by lia. simpl. rewrite HM. simpl. rewrite Hml. simpl.
    replace (py_range 1 (length ml)) with (@nil nat)
      by (unfold py_range; by replace (length ml - 1) with 0 by lia).
    simpl. by eexists.
Qed.

Lemma father_architecture_layers_short_witness :
  ∃ w',
    peform_pairing 0 1 2 "father_architecture_layers"
      (family father_genes [embedding 50] (λ _, 0))
      = (Raise (ValueError "a must be non-empty"), w') ∧
    individs w' = individs (family father_genes [embedding 50] (λ _, 0)) ∧
    lists w' = lists (family father_genes [embedding 50] (λ _, 0)) ∧
    dicts w' = dicts (family father_genes [embedding 50] (λ _, 0)).
Proof.
  apply (father_architecture_layers_short (family father_genes [embedding 50] (λ _, 0))
           0 1 2 father_obj mother_obj father_genes [embedding 50]);
    try reflexivity.
  right. simpl. lia.
Defined.

Lemma last_insert_before {A} (l : list A) (i : nat) (x : A) :
  i < length l - 1 → last (<[i := x]> l) = last l.
Proof.
  intros Hi. rewrite !last_lookup, length_insert.
  rewrite list_lookup_insert_ne; [done|lia].
Qed.

Lemma index_of_first (x : string) (xs : list string) (n : nat) :
  index_of x xs = Ret n → ∀ j, j < n → xs !! j ≠ Some x.
Proof.
  revert n. induction xs as [|y ys IH]; intros n Hn j Hj; simpl in Hn; [done|].
  destruct (decide (y = x)) as [->|Hne].
  - injection Hn as <-. lia.
  - destruct (index_of x ys) as [m|e] eqn:Hm; [|done]. injection Hn as <-.
    destruct j as [|j]; simpl.
    + intros [= Heq]. done.
    + apply (IH m eq_refl). lia.
Qed.

Lemma slice_body_lookup_inner {A} (xs : list A) (j : nat) :
  1 ≤ j < length xs - 1 → slice_body xs !! (j - 1) = xs !! j.
Proof.
  intros Hj. unfold slice_body.
  rewrite lookup_take_lt by lia. rewrite lookup_drop.
  f_equal. lia.
Qed.

Lemma body_first_of_type (xs : list Layer) (t : string) (n : nat) :
  index_of t (type <$> slice_body xs) = Ret n →
  n + 1 < length xs - 1 →
  ∀ j g, 1 ≤ j < n + 1 → xs !! j = Some g → type g ≠ t.
Proof.
  intros Hn Hlen j g Hj Hg Hty.
  apply (index_of_first _ _ _ Hn (j - 1)); [lia|].
  rewrite list_lookup_fmap, slice_body_lookup_inner by lia.
  by rewrite Hg, <- Hty.
Qed.

(** X7.  [father_architecture_parameter], when the parents' body genes
    have a layer type in common, gives the child the father's architecture
    with exactly one body gene replaced: at the index [c] of the first body
    gene of the father that has the drawn type, the child holds the first
    body gene of the mother that has that type; at every other index it
    holds the father's gene.  So the sequence of layer types, the length,
    the first gene and the last gene are the father's; training parameters
    and data processing are the father's too. *)
Theorem father_architecture_parameter_child (w : World) (individ father mother : loc)
    (I F M : Individ) (fg mg : Genotype) :
  individs w !! individ = Some I →
  has_genotype w father F fg →
  has_genotype w mother M mg →
  individ ≠ father → individ ≠ mother →
  ¬ no_common_type (g_architecture fg) (g_architecture mg) →
  ∃ w' child c a old new,
    peform_pairing individ father mother "father_architecture_parameter" w
      = (Ret (Some individ), w') ∧
    genotype w' individ = Some child ∧
    1 ≤ c < length (g_architecture fg) - 1 ∧
    1 ≤ a < length (g_architecture mg) - 1 ∧
    g_architecture fg !! c = Some old ∧
    g_architecture mg !! a = Some new ∧
    type old = type new ∧
    (∀ j g, 1 ≤ j < c → g_architecture fg !! j = Some g → type g ≠ type new) ∧
    (∀ j g, 1 ≤ j < a → g_architecture mg !! j = Some g → type g ≠ type new) ∧
    g_architecture child !! c = Some new ∧
    (∀ i, i ≠ c → g_architecture child !! i = g_architecture fg !! i) ∧
    type <$> g_architecture child = type <$> g_architecture fg ∧
    length (g_architecture child) = length (g_architecture fg) ∧
    g_architecture child !! 0 = g_architecture fg !! 0 ∧
    last (g_architecture child) = last (g_architecture fg) ∧
    g_training_parameters child = g_training_parameters fg ∧
    g_data_processing child = g_data_processing fg.
Proof.
  intros HI (HF & Hfa & Hft & Hfd) (HM & Hma & Hmt & Hmd) Hif Him Hsome.
  destruct (father_architecture_parameter_pairing_run w individ father mother
              I F M HI HF HM Hif Him _ _ Hfa Hma Hsome)
    as (c & a & old & new & Hci & Hai & Hold & Hnew & Hty & Hc & Hal & Hrun).
  eexists _, (mkGenotype (<[c + 1 := new]> (g_architecture fg))
                (g_training_parameters fg) (g_data_processing fg)),
    (c + 1), (a + 1), old, new.
  unfold peform_pairing.
  repeat (case_decide; [discriminate|]). case_decide; [|done].
  unfold bind at 1. rewrite Hrun.
  split; [reflexivity|]. simpl. split_and!.
  - apply (genotype_lookup _ _ (mkIndivid (architecture F) (training_parameters F)
                                  (data_processing F))); simpl; try done;
      by rewrite lookup_insert_eq.
  - lia.
  - lia.
  - lia.
  - lia.
  - done.
  - done.
  - done.
  - by apply body_first_of_type.
  - by apply body_first_of_type.
  - rewrite list_lookup_insert_eq; [done|lia].
  - intros i Hi. by rewrite list_lookup_insert_ne.
  - rewrite list_fmap_insert, <- Hty. apply list_insert_id.
    by rewrite list_lookup_fmap, Hold.
  - by rewrite length_insert.
  - rewrite list_lookup_insert_ne; [done|lia].
  - by apply last_insert_before.
  - done.
  - done.
Qed.

Lemma father_architecture_parameter_child_witness :
  ∃ w' child c a old new,
    peform_pairing 0 1 2 "father_architecture_parameter" (w_common (λ _, 0))
      = (Ret (Some 0), w') ∧
    genotype w' 0 = Some child ∧
    1 ≤ c < 4 - 1 ∧
    1 ≤ a < 3 - 1 ∧
    father_genes !! c = Some old ∧
    mother_genes !! a = Some new ∧
    type old = type new ∧
    (∀ j g, 1 ≤ j < c → father_genes !! j = Some g → type g ≠ type new) ∧
    (∀ j g, 1 ≤ j < a → mother_genes !! j = Some g → type g ≠ type new) ∧
    g_architecture child !! c = Some new ∧
    (∀ i, i ≠ c → g_architecture child !! i = father_genes !! i) ∧
    type <$> g_architecture child = type <$> father_genes ∧
    length (g_architecture child) = 4 ∧
    g_architecture child !! 0 = father_genes !! 0 ∧
    last (g_architecture child) = last father_genes ∧
    g_training_parameters child = father_training_dict ∧
    g_data_processing child = father_data_dict.
Proof.
  apply (father_architecture_parameter_child (w_common (λ _, 0)) 0 1 2 shell father_obj
           mother_obj father_genotype mother_genotype);
    try reflexivity; try discriminate; try (repeat split; fail).
Defined.

Lemma slice_body_short {A} (xs : list A) : length xs ≤ 2 → slice_body xs = [].
Proof.
  intros Hlen. unfold slice_body.
  replace (length xs - 2) with 0 by lia. apply take_0.
Qed.

(** X8.  [father_architecture_parameter] on a parent with no body gene:
    when the father's or the mother's architecture has at most two genes
    (the input and the output gene only), there is no common type, and
    the call raises [ValueError] whatever the other parent is. *)
Theorem father_architecture_parameter_no_body (w : World) (individ father mother : loc)
    (I F M : Individ) (fl ml : list Layer) :
  individs w !! individ = Some I →
  individs w !! father = Some F →
  individs w !! mother = Some M →
  individ ≠ father → individ ≠ mother →
  lists w !! architecture F = Some fl →
  lists w !! architecture M = Some ml →
  length fl ≤ 2 ∨ length ml ≤ 2 →
  (peform_pairing individ father mother "father_architecture_parameter" w).1
    = Raise choice_empty.
Proof.
  intros HI HF HM Hif Him Hfl Hml Hshort.
  assert (Hnone : no_common_type fl ml).
  { unfold no_common_type.
    destruct Hshort as [Hs|Hs]; rewrite (slice_body_short _ Hs); simpl.
    - apply intersection_empty_l_L.
    - apply intersection_empty_r_L. }
  unfold peform_pairing.
  repeat (case_decide; [discriminate|]). case_decide; [|done].
  unfold bind at 1.
  by erewrite father_architecture_parameter_pairing_empty by eassumption.
Qed.

Lemma father_architecture_parameter_no_body_witness :
  (peform_pairing 0 1 2 "father_architecture_parameter"
     (family father_genes [embedding 50; dense 2] (λ _, 0))).1
    = Raise (ValueError "a must be non-empty").
Proof.
  apply (father_architecture_parameter_no_body
           (family father_genes [embedding 50; dense 2] (λ _, 0)) 0 1 2
           shell father_obj mother_obj father_genes [embedding 50; dense 2]);
    try reflexivity; try discriminate.
  right. simpl. lia.
Defined.

(** X9.  [father_architecture] with a father whose data processing has no
    ['sentences_length']: the call raises [KeyError] for that key.  The
    child's three attributes have been rebound by then, to the father's
    architecture and the mother's two dicts; no list and no dict has been
    written, the mother's data processing in particular. *)
Theorem father_architecture_missing_length (w : World) (individ father mother : loc)
    (I F M : Individ) (fd : gmap string Z) :
  individs w !! individ = Some I →
  individs w !! father = Some F →
  individs w !! mother = Some M →
  individ ≠ father → individ ≠ mother →
  dicts w !! data_processing F = Some fd →
  fd !! "sentences_length" = None →
  ∃ w',
    peform_pairing individ father mother "father_architecture" w
      = (Raise (KeyError "sentences_length"), w') ∧
    individs w' !! individ
      = Some (mkIndivid (architecture F) (training_parameters M) (data_processing M)) ∧
    lists w' = lists w ∧ dicts w' = dicts w.
Proof.
  intros HI HF HM Hif Him Hfd Hnone.
  unfold peform_pairing. case_decide; [|done].
  unfold father_architecture_pairing. unfold_se.
  simplify_map_eq.
  eexists. split; [reflexivity|]. simpl. by rewrite lookup_insert_eq.
Qed.

Lemma father_architecture_missing_length_witness :
  ∃ w',
    peform_pairing 1 0 2 "father_architecture" (w_common (λ _, 0))
      = (Raise (KeyError "sentences_length"), w') ∧
    individs w' !! 1 = Some (mkIndivid 10 31 32) ∧
    lists w' = lists (w_common (λ _, 0)) ∧ dicts w' = dicts (w_common (λ _, 0)).
Proof.
  apply (father_architecture_missing_length (w_common (λ _, 0)) 1 0 2
           father_obj shell mother_obj ∅);
    try reflexivity; try discriminate.
Defined.

(** *** Two pairings in a row *)

(** X10.  Two children made one after the other from the same parents by
    [father_architecture_layers] do not have an architecture each: after
    the second call the first child, the second child and the father all
    show one and the same architecture, the substitution of the second call
    included. *)
Theorem layers_children_share_architecture (w : World)
    (first second father mother : loc) (I1 I2 F M : Individ) (fg mg : Genotype) :
  individs w !! first = Some I1 →
  individs w !! second = Some I2 →
  has_genotype w father F fg →
  has_genotype w mother M mg →
  first ≠ second →
  first ≠ father → first ≠ mother → second ≠ father → second ≠ mother →
  architecture F ≠ architecture M →
  2 ≤ length (g_architecture fg) → 2 ≤ length (g_architecture mg) →
  ∃ w1 w2 shared,
    peform_pairing first father mother "father_architecture_layers" w
      = (Ret (Some first), w1) ∧
    peform_pairing second father mother "father_architecture_layers" w1
      = (Ret (Some second), w2) ∧
    architecture_of w2 first = Some shared ∧
    architecture_of w2 second = Some shared ∧
    architecture_of w2 father = Some shared.
Proof.
  intros H1 H2 (HF & Hfa & Hft & Hfd) (HM & Hma & Hmt & Hmd)
    H12 H1f H1m H2f H2m Hne Hnf Hnm.
  set (fl := g_architecture fg) in *. set (ml := g_architecture mg) in *.
  (* the first call *)
  destruct (lookup_lt_is_Some_2 ml (1 + rng w (S (drawn w)) mod (length ml - 1)))
    as [g1 Hg1]; [by apply choice_range_bounds|].
  pose proof (father_architecture_layers_pairing_run w first father mother I1 F M
                H1 HF HM H1f H1m fl ml g1 Hfa Hma Hnf Hnm Hg1) as Hrun1.
  set (c1 := 1 + rng w (drawn w) mod (length fl - 1)) in *.
  set (w1 := mkWorld _ _ _ _ _) in Hrun1.
  (* the second call, from the store left by the first *)
  assert (H2' : individs w1 !! second = Some I2)
    by (subst w1; simpl; by rewrite lookup_insert_ne).
  assert (HF' : individs w1 !! father = Some F)
    by (subst w1; simpl; by rewrite lookup_insert_ne).
  assert (HM' : individs w1 !! mother = Some M)
    by (subst w1; simpl; by rewrite lookup_insert_ne).
  assert (Hfa' : lists w1 !! architecture F = Some (<[c1 := g1]> fl))
    by (subst w1; simpl; by rewrite lookup_insert_eq).
  assert (Hma' : lists w1 !! architecture M = Some ml)
    by (subst w1; simpl; by rewrite lookup_insert_ne).
  assert (Hnf' : 2 ≤ length (<[c1 := g1]> fl)) by by rewrite length_insert.
  destruct (lookup_lt_is_Some_2 ml (1 + rng w1 (S (drawn w1)) mod (length ml - 1)))
    as [g2 Hg2]; [by apply choice_range_bounds|].
  pose proof (father_architecture_layers_pairing_run w1 second father mother I2 F M
                H2' HF' HM' H2f H2m _ ml g2 Hfa' Hma' Hnf' Hnm Hg2) as Hrun2.
  set (w2 := mkWorld _ _ _ _ _) in Hrun2.
  exists w1, w2. eexists.
  unfold peform_pairing.
  case_decide; [discriminate|]. case_decide; [|done].
  unfold bind at 1 2. rewrite Hrun1, Hrun2.
  split; [done|]. split; [done|].
  assert (Hshared : ∀ o,
            individs w2 !! o = Some (mkIndivid (architecture F) (training_parameters F)
                                       (data_processing F)) →
            architecture_of w2 o
            = Some (<[1 + rng w1 (drawn w1) mod (length (<[c1 := g1]> fl) - 1) := g2]>
                      (<[c1 := g1]> fl))).
  { intros o Ho. unfold architecture_of.
    erewrite genotype_lookup; [done|exact Ho|..]; subst w2 w1; simpl.
    - by rewrite lookup_insert_eq.
    - exact Hft.
    - exact Hfd. }
  split_and!; apply Hshared; subst w2 w1; simpl.
  - by rewrite lookup_insert_ne, lookup_insert_eq.
  - by rewrite lookup_insert_eq.
  - rewrite !lookup_insert_ne by done. rewrite HF. by destruct F.
Qed.

Lemma layers_children_share_architecture_witness :
  ∃ w1 w2 shared,
    peform_pairing 0 1 2 "father_architecture_layers" (w_two_shells (λ k, k))
      = (Ret (Some 0), w1) ∧
    peform_pairing 3 1 2 "father_architecture_layers" w1 = (Ret (Some 3), w2) ∧
    architecture_of w2 0 = Some shared ∧
    architecture_of w2 3 = Some shared ∧
    architecture_of w2 1 = Some shared.
Proof.
  apply (layers_children_share_architecture (w_two_shells (λ k, k)) 0 3 1 2
           shell second_shell father_obj mother_obj father_genotype mother_genotype);
    try reflexivity; try discriminate; try (repeat split; fail); simpl; lia.
Defined.

(** *** What comes back *)

Lemma bind_returns_only {A B} (m : SE World A) (k : A → SE World B) (v : B) :
  (∀ a w r w', k a w = (Ret r, w') → r = v) →
  ∀ w r w', bind m k w = (Ret r, w') → r = v.
Proof.
  intros Hk w r w' Hrun. unfold bind in Hrun.
  destruct (m w) as [[a|e] w1]; [|done]. by eapply Hk.
Qed.

Ltac returns_steps :=
  repeat first
    [ apply bind_returns_only; intros ?
    | cbv zeta ];
  intros ? ? ? Hret; by injection Hret as <-.

Lemma strategies_return_target (individ father mother : loc) :
  (∀ w r w', father_architecture_pairing individ father mother w = (Ret r, w') →
             r = individ) ∧
  (∀ w r w', father_architecture_layers_pairing individ father mother w = (Ret r, w') →
             r = individ) ∧
  (∀ w r w', father_architecture_parameter_pairing individ father mother w = (Ret r, w') →
             r = individ) ∧
  (∀ w r w', father_training_pairing individ father mother w = (Ret r, w') →
             r = individ) ∧
  (∀ w r w', father_data_processing_pairing individ father mother w = (Ret r, w') →
             r = individ).
Proof.
  split_and!.
  - unfold father_architecture_pairing. returns_steps.
  - unfold father_architecture_layers_pairing. returns_steps.
  - unfold father_architecture_parameter_pairing. returns_steps.
  - unfold father_training_pairing. returns_steps.
  - unfold father_data_processing_pairing. returns_steps.
Qed.

(** X11.  What [peform_pairing] returns is never a new object: for a
    recognized pairing type it is the target it was given, and for any
    other it is [None] with the store untouched. *)
Theorem peform_pairing_returns_target (w w' : World) (individ father mother : loc)
    (pairing_type : string) (result : option loc) :
  peform_pairing individ father mother pairing_type w = (Ret result, w') →
  ((pairing_type ∈ recognized_pairing_types) ∧ result = Some individ) ∨
  ((pairing_type ∉ recognized_pairing_types) ∧ result = None ∧ w' = w).
Proof.
  destruct (strategies_return_target individ father mother)
    as (Ha & Hl & Hp & Ht & Hd).
  unfold peform_pairing, recognized_pairing_types. intros Hrun.
  repeat case_decide; subst;
    try (left; split; [rewrite !elem_of_cons; tauto|];
         unfold bind in Hrun;
         match type of Hrun with
         | context [match ?m w with _ => _ end] =>
             destruct (m w) as [[r|e] w1] eqn:Hs; [|done]
         end;
         injection Hrun as <- <-; f_equal; eauto; fail).
  right. unfold ret in Hrun. injection Hrun as <- <-.
  split; [|done]. rewrite !elem_of_cons, elem_of_nil. tauto.
Qed.

Lemma peform_pairing_returns_target_witness :
  (("father_training" ∈ recognized_pairing_types) ∧ Some 0 = Some 0) ∨
  (("father_training" ∉ recognized_pairing_types) ∧ Some 0 = None ∧
   (peform_pairing 0 1 2 "father_training" (w_common (λ _, 0))).2 = w_common (λ _, 0)).
Proof.
  apply (peform_pairing_returns_target (w_common (λ _, 0)) _ 0 1 2 "father_training"
           (Some 0)).
  reflexivity.
Defined.

(** *** A pairing that fails *)

(** X12.  A call of [peform_pairing] that raises has written into no list
    and no dict: every gene group in the store, those of both parents
    included, is as it was before the call.  (The attributes of the target
    may have been rebound.) *)
Theorem failed_pairing_writes_no_gene (w w' : World) (individ father mother : loc)
    (pairing_type : string) (I F M : Individ) (fl ml : list Layer)
    (fd md : gmap string Z) (e : exn) :
  individs w !! individ = Some I →
  individs w !! father = Some F →
  individs w !! mother = Some M →
  individ ≠ father → individ ≠ mother →
  lists w !! architecture F = Some fl →
  lists w !! architecture M = Some ml →
  dicts w !! data_processing F = Some fd →
  dicts w !! data_processing M = Some md →
  peform_pairing individ father mother pairing_type w = (Raise e, w') →
  lists w' = lists w ∧ dicts w' = dicts w.
Proof.
  intros HI HF HM Hif Him Hfl Hml Hfd Hmd Hrun.
  unfold peform_pairing in Hrun.
  repeat case_decide; try subst pairing_type; try unfold bind at 1 in Hrun.
  - (* father_architecture *)
    destruct (fd !! "sentences_length") as [v|] eqn:Hv.
    + erewrite father_architecture_pairing_run in Hrun by eassumption. discriminate.
    + unfold father_architecture_pairing in Hrun. unfold_se.
      simplify_map_eq. done.
  - (* father_architecture_layers *)
    destruct (decide (2 ≤ length fl ∧ 2 ≤ length ml)) as [[Hnf Hnm]|Hshort].
    + destruct (lookup_lt_is_Some_2 ml
                  (1 + rng w (S (drawn w)) mod (length ml - 1))) as [new Hnew].
      { by apply choice_range_bounds. }
      erewrite father_architecture_layers_pairing_run in Hrun by eassumption.
      discriminate.
    + unfold father_architecture_layers_pairing, layers_draw in Hrun. unfold_se.
      rewrite HF, Hfl in Hrun.
      destruct (decide (length fl < 2)) as [Hf|Hf].
      * replace (py_range 1 (length fl)) with (@nil nat) in Hrun
          by (unfold py_range; by replace (length fl - 1) with 0 by lia).
        simpl in Hrun. by injection Hrun as _ <-.
      * rewrite choice_range_run in Hrun by lia. simpl in Hrun.
        rewrite HM in Hrun. simpl in Hrun. rewrite Hml in Hrun. simpl in Hrun.
        replace (py_range 1 (length ml)) with (@nil nat) in Hrun
          by (unfold py_range; by replace (length ml - 1) with 0 by lia).
        simpl in Hrun. by injection Hrun as _ <-.
  - (* father_architecture_parameter *)
    destruct (decide (list_to_set (type <$> slice_body fl)
                        ∩ list_to_set (type <$> slice_body ml) = (∅ : gset string)))
      as [Hnone|Hsome].
    + erewrite father_architecture_parameter_pairing_empty in Hrun by eassumption.
      by injection Hrun as _ <-.
    + destruct (father_architecture_parameter_pairing_run w individ father mother
                  I F M HI HF HM Hif Him fl ml Hfl Hml Hsome)
        as (c & a & old & new & _ & _ & _ & _ & _ & _ & _ & Hrun').
      rewrite Hrun' in Hrun. discriminate.
  - (* father_training *)
    erewrite father_training_pairing_run in Hrun by eassumption. discriminate.
  - (* father_data_processing *)
    destruct fl as [|g0 fl'] eqn:Hfl0.
    + unfold father_data_processing_pairing in Hrun. unfold_se.
      simplify_map_eq. done.
    + destruct ml as [|m0 ml'] eqn:Hml0.
      * unfold father_data_processing_pairing in Hrun. unfold_se.
        simplify_map_eq. done.
      * erewrite (father_data_processing_pairing_run _ _ _ _ _ _ _ HI HF HM Hif Him
                    _ _ g0 Hfl eq_refl Hml) in Hrun by (simpl; lia).
        discriminate.
  - discriminate.
Qed.

Lemma failed_pairing_writes_no_gene_witness :
  lists (peform_pairing 0 1 2 "father_architecture_parameter" w_disjoint).2
    = lists w_disjoint ∧
  dicts (peform_pairing 0 1 2 "father_architecture_parameter" w_disjoint).2
    = dicts w_disjoint.
Proof.
  apply (failed_pairing_writes_no_gene w_disjoint _ 0 1 2 "father_architecture_parameter"
           shell father_obj mother_obj [embedding 100; lstm; dense 3]
           [embedding 50; cnn 64; dense 2] father_data_dict mother_data_dict
           (ValueError "a must be non-empty"));
    try reflexivity; try discriminate.
Defined.

(** *** Randomness *)

Lemma draws_nothing_bind {A B} (m : SE World A) (k : A → SE World B) :
  draws_nothing m → (∀ a, draws_nothing (k a)) → draws_nothing (bind m k).
Proof.
  intros Hm Hk w. unfold bind. specialize (Hm w).
  destruct (m w) as [[a|e] w1]; simpl in *; [|done].
  destruct (Hk a w1) as [Hr Hd]. destruct Hm as [Hr' Hd'].
  split; congruence.
Qed.

Lemma draws_nothing_ret {A} (a : A) : draws_nothing (ret a).
Proof. by intros w. Qed.

Lemma draws_nothing_getattr (attr : Individ → loc) (o : loc) :
  draws_nothing (getattr attr o).
Proof. intros w. unfold getattr. by destruct (individs w !! o). Qed.

Lemma draws_nothing_setattr (upd : loc → Individ → Individ) (o v : loc) :
  draws_nothing (setattr upd o v).
Proof. intros w. unfold setattr. by destruct (individs w !! o). Qed.

Lemma draws_nothing_list_getitem (l : loc) (i : nat) : draws_nothing (list_getitem l i).
Proof.
  intros w. unfold list_getitem, bind, list_read.
  destruct (lists w !! l) as [xs|]; [|done]. by destruct (xs !! i).
Qed.

Lemma draws_nothing_list_setitem (l : loc) (i : nat) (x : Layer) :
  draws_nothing (list_setitem l i x).
Proof.
  intros w. unfold list_setitem, bind, list_read.
  destruct (lists w !! l) as [xs|]; [|done]. by case_decide.
Qed.

Lemma draws_nothing_dict_getitem (d : loc) (k : string) : draws_nothing (dict_getitem d k).
Proof.
  intros w. unfold dict_getitem.
  destruct (dicts w !! d) as [m|]; [|done]. by destruct (m !! k).
Qed.

Lemma draws_nothing_dict_setitem (d : loc) (k : string) (v : Z) :
  draws_nothing (dict_setitem d k v).
Proof. intros w. unfold dict_setitem. by destruct (dicts w !! d). Qed.

#[local] Hint Resolve draws_nothing_ret draws_nothing_getattr draws_nothing_setattr
  draws_nothing_list_getitem draws_nothing_list_setitem draws_nothing_dict_getitem
  draws_nothing_dict_setitem : steady.

Ltac draws_steps :=
  repeat first
    [ solve [auto with steady]
    | apply draws_nothing_bind; [|intros ?] ].

(** X13.  [father_architecture], [father_training] and
    [father_data_processing] make no call of [np.random.choice]: whatever
    their arguments, and whether they return or raise, the random generator
    is after the call in the state it was in before. *)
Theorem deterministic_pairing_draws_nothing (individ father mother : loc)
    (pairing_type : string) (w : World) :
  pairing_type ∈ deterministic_pairing_types →
  rng (peform_pairing individ father mother pairing_type w).2 = rng w ∧
  drawn (peform_pairing individ father mother pairing_type w).2 = drawn w.
Proof.
  unfold deterministic_pairing_types. rewrite !elem_of_cons, elem_of_nil.
  intros Hin. revert w.
  change (draws_nothing (peform_pairing individ father mother pairing_type)).
  unfold peform_pairing.
  destruct Hin as [-> | [-> | [-> | []]]];
    repeat (case_decide; [discriminate|]); (case_decide; [|done]).
  - unfold father_architecture_pairing. draws_steps.
  - unfold father_training_pairing. draws_steps.
  - unfold father_data_processing_pairing. draws_steps.
Qed.

Lemma deterministic_pairing_draws_nothing_witness :
  rng (peform_pairing 0 1 2 "father_data_processing" (w_common (λ k, k))).2
    = rng (w_common (λ k, k)) ∧
  drawn (peform_pairing 0 1 2 "father_data_processing" (w_common (λ k, k))).2
    = drawn (w_common (λ k, k)).
Proof.
  apply (deterministic_pairing_draws_nothing 0 1 2 "father_data_processing"
           (w_common (λ k, k))).
  compute_done.
Defined.

(** ** Further properties of the factory *)

(** X14.  The factory of [architecture_interface.py] is the factory of
    [cradle.py] with the error taken out: it returns the same individual
    where that one returns, returns [None] where that one raises, and never
    raises itself. *)
Theorem interface_cradle_is_cradle_without_error (stage : Z)
    (data_type task_type : string) (parents : option (loc * loc))
    (freeze : option bool) (kwargs : list (string * Z)) :
  ArchitectureInterface.cradle stage data_type task_type parents freeze kwargs
  = match Cradle.cradle stage data_type task_type parents freeze kwargs with
    | Ret individual => Ret (Some individual)
    | Raise _ => Ret None
    end.
Proof.
  unfold ArchitectureInterface.cradle, Cradle.cradle.
  by repeat case_decide.
Qed.

(** ** Further properties of the evaluator *)

Section EvaluatorExtras.
Context {C : Collaborators}.

(** *** Construction and the device *)

(** X15.  An evaluator that [__init__] has built holds a device handle,
    never the selector it was given: ['cpu'] and ['gpu'] are the only
    selectors for which [__init__] returns.  The data, the fold count and
    the generator flag are stored as given, and the tunable fields start at
    their defaults. *)
Theorem Evaluator_init_returns (x : list sample) (y : list label) (kfold_number : Z)
    (selector : string) (generator : bool) (ev : Evaluator) :
  Evaluator_init x y kfold_number selector generator = Ret ev →
  (selector = "cpu" ∧ device ev = "/device:CPU:0" ∨
   selector = "gpu" ∧ device ev = "/device:GPU:0") ∧
  device ev ∈ device_handles ∧
  _x ev = x ∧ _y ev = y ∧ _kfold_number ev = kfold_number ∧ _generator ev = generator ∧
  create_tokens ev = true ∧ _use_multiprocessing ev = true ∧ _workers ev = 2%Z ∧
  early_stopping_min_delta ev = (5 # 1000)%Q ∧ early_stopping_patience ev = 5%Z ∧
  verbose ev = 0%Z ∧ fitness_measure ev = "AUC".
Proof.
  unfold Evaluator_init, device_handles. intros Hinit.
  repeat case_decide; try discriminate; injection Hinit as <-; simpl;
    rewrite !elem_of_cons; split_and!; auto.
Qed.

(** X16.  Reading the device and assigning it back is refused: for an
    evaluator that holds a device handle, [ev.device = ev.device] raises
    [ValueError], and the evaluator is as it was. *)
Theorem device_setter_of_getter (ev : Evaluator) :
  device ev ∈ device_handles →
  device_setter (device ev) ev = (Raise (ValueError incorrect_device), ev).
Proof.
  unfold device_handles, device. intros Hin.
  rewrite !elem_of_cons, elem_of_nil in Hin.
  assert (Hc : _device ev ≠ "cpu").
  { intros Heq. rewrite Heq in Hin. by destruct Hin as [|[|]]. }
  assert (Hg : _device ev ≠ "gpu").
  { intros Heq. rewrite Heq in Hin. by destruct Hin as [|[|]]. }
  unfold device_setter, bind, assign_device. simpl.
  rewrite !decide_False by done. unfold raise. by destruct ev.
Qed.

End EvaluatorExtras.

Lemma Evaluator_init_returns_witness :
  (("cpu" = "cpu" ∧ device (toy_evaluator 0 5) = "/device:CPU:0") ∨
   ("cpu" = "gpu" ∧ device (toy_evaluator 0 5) = "/device:GPU:0")) ∧
  device (toy_evaluator 0 5) ∈ device_handles ∧
  _x (toy_evaluator 0 5) = [0; 1; 0; 1] ∧
  _y (toy_evaluator 0 5) = one_hot <$> [0; 1; 0; 1] ∧
  _kfold_number (toy_evaluator 0 5) = 5%Z ∧ _generator (toy_evaluator 0 5) = false ∧
  create_tokens (toy_evaluator 0 5) = true ∧
  _use_multiprocessing (toy_evaluator 0 5) = true ∧ _workers (toy_evaluator 0 5) = 2%Z ∧
  early_stopping_min_delta (toy_evaluator 0 5) = (5 # 1000)%Q ∧
  early_stopping_patience (toy_evaluator 0 5) = 5%Z ∧
  verbose (toy_evaluator 0 5) = 0%Z ∧ fitness_measure (toy_evaluator 0 5) = "AUC".
Proof.
  apply (Evaluator_init_returns (C := toy 0) [0; 1; 0; 1] (one_hot <$> [0; 1; 0; 1])
           5 "cpu" false (toy_evaluator 0 5)).
  reflexivity.
Defined.

Lemma device_setter_of_getter_witness :
  device_setter (device (toy_evaluator 0 1)) (toy_evaluator 0 1)
  = (Raise (ValueError incorrect_device), toy_evaluator 0 1).
Proof.
  apply (device_setter_of_getter (toy_evaluator 0 1)).
  compute_done.
Defined.


Section TrainingExtras.
Context {C : Collaborators}.

(** *** After the folds *)

Lemma fit_after_training (ev : Evaluator) (network : Network) (x : list row)
    (y : list (list real)) (folds : list (list nat * list nat))
    (out : list (list real) * list (list real)) (b b0 b1 b2 : backend) :
  process_data (_x ev) (_y ev) (data_type network) (task_type network)
    (net_data_processing network) (_create_tokens ev) b = (Ret (x, y), b0) →
  kfold_generator_fit ev y b0 = (Ret folds, b1) →
  for_each (fit_fold ev network x y) folds ([], []) b1 = (Ret out, b2) →
  fit ev network b = result_of ev network out b2.
Proof.
  intros Hdata Hfolds Hloop. unfold fit, bind at 1. rewrite Hdata. simpl.
  unfold bind at 1. rewrite Hfolds. unfold bind at 1. by rewrite Hloop.
Qed.

Lemma fit_generator_after_training (ev : Evaluator) (network : Network)
    (folds : list (list nat * list nat))
    (out : list (list real) * list (list real)) (b b1 b2 : backend) :
  kfold_generator_fit_generator ev b = (Ret folds, b1) →
  for_each (fit_generator_fold ev network) folds ([], []) b1 = (Ret out, b2) →
  fit_generator ev network b = result_of ev network out b2.
Proof.
  intros Hfolds Hloop. unfold fit_generator, bind at 1. rewrite Hfolds.
  unfold bind at 1. by rewrite Hloop.
Qed.

(** X17.  For a network whose task type is not ['classification'], [fit]
    and [fit_generator] train every fold and only then fail: the name
    [result] was never bound, the call raises [UnboundLocalError], and the
    backend is left as the last fold left it. *)
Theorem other_task_type_fails_after_training (ev : Evaluator) (network : Network)
    (folds : list (list nat * list nat)) (out : list (list real) * list (list real))
    (b1 b2 : backend) :
  task_type network ≠ "classification" →
  (∀ x y b b0,
     process_data (_x ev) (_y ev) (data_type network) (task_type network)
       (net_data_processing network) (_create_tokens ev) b = (Ret (x, y), b0) →
     kfold_generator_fit ev y b0 = (Ret folds, b1) →
     for_each (fit_fold ev network x y) folds ([], []) b1 = (Ret out, b2) →
     fit ev network b = (Raise (UnboundLocalError "result"), b2)) ∧
  (∀ b,
     kfold_generator_fit_generator ev b = (Ret folds, b1) →
     for_each (fit_generator_fold ev network) folds ([], []) b1 = (Ret out, b2) →
     fit_generator ev network b = (Raise (UnboundLocalError "result"), b2)).
Proof.
  intros Htask. split.
  - intros x y b b0 Hdata Hfolds Hloop.
    rewrite (fit_after_training _ _ _ _ _ _ _ _ _ _ Hdata Hfolds Hloop).
    unfold result_of. by rewrite decide_False.
  - intros b Hfolds Hloop.
    rewrite (fit_generator_after_training _ _ _ _ _ _ _ Hfolds Hloop).
    unfold result_of. by rewrite decide_False.
Qed.

(** X18.  The fitness measure is looked at after training only.  With a
    measure other than ['f1'] and ['AUC'] (the setter stores any value),
    [fit] and [fit_generator] on a classification network train every fold
    and then raise [TypeError]; the backend is left as the last fold left
    it. *)
Theorem unrecognized_measure_fails_after_training (ev : Evaluator) (network : Network)
    (measure : string) (classes : Z)
    (folds : list (list nat * list nat)) (out : list (list real) * list (list real))
    (b1 b2 : backend) :
  measure ≠ "f1" → measure ≠ "AUC" →
  task_type network = "classification" →
  options network !! "classes" = Some classes →
  let ev' := (fitness_measure_setter measure ev).2 in
  (∀ x y b b0,
     process_data (_x ev') (_y ev') (data_type network) (task_type network)
       (net_data_processing network) (_create_tokens ev') b = (Ret (x, y), b0) →
     kfold_generator_fit ev' y b0 = (Ret folds, b1) →
     for_each (fit_fold ev' network x y) folds ([], []) b1 = (Ret out, b2) →
     fit ev' network b = (Raise (TypeError "Unrecognized fitness measure"), b2)) ∧
  (∀ b,
     kfold_generator_fit_generator ev' b = (Ret folds, b1) →
     for_each (fit_generator_fold ev' network) folds ([], []) b1 = (Ret out, b2) →
     fit_generator ev' network b = (Raise (TypeError "Unrecognized fitness measure"), b2)).
Proof.
  intros Hf1 Hauc Htask Hclasses ev'.
  assert (Hres : ∀ b, result_of ev' network out b
                      = (Raise (TypeError "Unrecognized fitness measure"), b)).
  { intros b. unfold result_of. rewrite decide_True by done.
    unfold bind, lift, item. rewrite Hclasses.
    unfold test_classification. simpl. by rewrite !decide_False by done. }
  split.
  - intros x y b b0 Hdata Hfolds Hloop.
    by rewrite (fit_after_training _ _ _ _ _ _ _ _ _ _ Hdata Hfolds Hloop).
  - intros b Hfolds Hloop.
    by rewrite (fit_generator_after_training _ _ _ _ _ _ _ Hfolds Hloop).
Qed.

(** *** The AUC loop *)

Lemma auc_loop_app (predicted_out real_out : list (list real))
    (xs ys : list nat) (acc : list real) :
  auc_loop predicted_out real_out (xs ++ ys) acc
  = match auc_loop predicted_out real_out xs acc with
    | Ret acc' => auc_loop predicted_out real_out ys acc'
    | Raise e => Raise e
    end.
Proof.
  revert acc. induction xs as [|i xs IH]; intros acc; simpl; [done|].
  destruct (class_auc predicted_out real_out acc i); [apply IH|done].
Qed.

Lemma auc_loop_returns (predicted_out real_out : list (list real))
    (xs : list nat) (acc : list real) :
  (∀ j, j ∈ xs →
     ∃ a, auc (class_curve predicted_out real_out j).1
              (class_curve predicted_out real_out j).2 = Ret a) →
  ∃ acc', auc_loop predicted_out real_out xs acc = Ret acc'.
Proof.
  revert acc. induction xs as [|i xs IH]; intros acc Hall; simpl; [eauto|].
  destruct (Hall i) as [a Ha]; [by left|].
  unfold class_auc. rewrite Ha. apply IH.
  intros j Hj. apply Hall. by right.
Qed.

(** X19.  Only the computation of the curve is guarded.  When [auc] raises
    for a class, on the curve or on the zeros put in its place, and the
    classes before it went through, the AUC reduction raises that
    exception: nothing is substituted for the area. *)
Theorem auc_exception_is_not_caught (ev : Evaluator)
    (predicted_out real_out : list (list real)) (classes : Z) (i : nat) (e : exn) :
  _fitness_measure ev = "AUC" →
  i < Z.to_nat classes →
  (∀ j, j < i →
     ∃ a, auc (class_curve predicted_out real_out j).1
              (class_curve predicted_out real_out j).2 = Ret a) →
  auc (class_curve predicted_out real_out i).1
      (class_curve predicted_out real_out i).2 = Raise e →
  test_classification ev predicted_out real_out classes = Raise e.
Proof.
  intros Hm Hi Hbefore Hraise. unfold test_classification.
  rewrite Hm. rewrite decide_False by discriminate. rewrite decide_True by done.
  unfold py_range. rewrite Nat.sub_0_r.
  replace (Z.to_nat classes) with (i + S (Z.to_nat classes - S i)) by lia.
  rewrite seq_app, auc_loop_app.
  destruct (auc_loop_returns predicted_out real_out (seq 0 i) []) as [acc' ->].
  { intros j Hj. apply Hbefore. apply elem_of_seq in Hj. lia. }
  simpl. unfold class_auc. by rewrite Hraise.
Qed.

(** X20.  With a class count of zero or less the AUC loop has no
    iteration: the score is the sum of no area, whatever the predictions
    and the labels are, and neither [roc_curve] nor [auc] is consulted. *)
Theorem auc_of_no_class (ev : Evaluator)
    (predicted_out real_out : list (list real)) (classes : Z) :
  _fitness_measure ev = "AUC" →
  (classes ≤ 0)%Z →
  test_classification ev predicted_out real_out classes = Ret (np_sum []).
Proof.
  intros Hm Hc. unfold test_classification.
  rewrite Hm. rewrite decide_False by discriminate. rewrite decide_True by done.
  by replace (Z.to_nat classes) with 0 by lia.
Qed.
End TrainingExtras.

Section FoldExtras.
Context {C : Collaborators}.

(** *** Indexing by a fold *)

Lemma take_rows_all {A} (a : list A) : take_rows a (seq 0 (length a)) = Ret a.
Proof.
  rewrite <- (Nat.sub_0_r (length a)) at 1. by rewrite take_rows_whole.
Qed.

Lemma take_rows_length {A} (a : list A) (idx : list nat) (vs : list A) :
  take_rows a idx = Ret vs → length vs = length idx.
Proof.
  revert vs. induction idx as [|i idx IH]; intros vs H; simpl in H.
  - by injection H as <-.
  - destruct (a !! i); [|done]. destruct (take_rows a idx) as [vs'|]; [|done].
    injection H as <-. simpl. by rewrite (IH vs').
Qed.

Lemma take_rows_past_end {A} (a : list A) (k n : nat) :
  k ≤ length a → length a < k + n → take_rows a (seq k n) = Raise IndexError.
Proof.
  revert k. induction n as [|n IH]; intros k Hk Hn; [lia|]. simpl.
  destruct (a !! k) as [v|] eqn:Hv; [|done].
  apply lookup_lt_Some in Hv. rewrite (IH (S k)) by lia. done.
Qed.

(** X21.  On the single fold of [kfold_number == 1], and with processed
    data of the length of [x], the [try] block of [fit] fits the model on
    all of the data, validates it on the same data, predicts on the same
    data, and appends all of the processed labels to the ground truth. *)
Theorem single_fold_trains_and_tests_on_all (ev : Evaluator) (network : Network)
    (x : list row) (y : list (list real))
    (out : list (list real) * list (list real)) (b : backend) :
  length x = length (_x ev) →
  length y = length (_x ev) →
  fit_try ev network x y out (seq 0 (length (_x ev)), seq 0 (length (_x ev))) b
  = (let! g := init_tf_graph network in
     run! nn_compile g.1.1 g.1.2 g.2 ["accuracy"] in
     let! batchs := lift (item (net_training_parameters network) "batchs") in
     let! epochs := lift (item (net_training_parameters network) "epochs") in
     run! nn_fit g.1.1 x y batchs epochs (x, y) [early_stopping ev (_verbose ev)]
            true (_verbose ev) in
     let! predicted := nn_predict g.1.1 x in
     ret (out.1 ++ predicted, out.2 ++ y)) b.
Proof.
  intros Hx Hy.
  assert (Hwx : take_rows x (seq 0 (length (_x ev))) = Ret x)
    by (rewrite <- Hx; apply take_rows_all).
  assert (Hwy : take_rows y (seq 0 (length (_x ev))) = Ret y)
    by (rewrite <- Hy; apply take_rows_all).
  unfold fit_try. simpl. rewrite Hwx, Hwy.
  reflexivity.
Qed.

(** X22.  [fit_generator] without cross-validation on data with fewer
    labels than samples: the one fold covers every sample, [self._y[train]]
    runs past the end of the labels, and the call raises [IndexError]
    before any generator is built; the backend is untouched. *)
Theorem fit_generator_fewer_labels (ev : Evaluator) (network : Network) (b : backend) :
  _kfold_number ev = 1%Z →
  length (_y ev) < length (_x ev) →
  fit_generator ev network b = (Raise IndexError, b).
Proof.
  intros H1 Hshort. unfold fit_generator, bind at 1.
  rewrite kfold_generator_fit_generator_single by done.
  unfold whole_range_fold, py_range. rewrite Nat.sub_0_r. simpl.
  unfold bind at 1 2. unfold fit_generator_fold, bind at 1.
  unfold fold_generators. simpl. unfold bind at 1, lift at 1.
  rewrite take_rows_all. unfold bind at 1, lift at 1.
  by rewrite take_rows_past_end by lia.
Qed.

(** *** What the loop of [fit] gathers *)

Ltac step_run H :=
  match type of H with
  | context [match ?X with _ => _ end] =>
      lazymatch X with
      | context [match _ with _ => _ end] => fail
      | _ =>
          first [ destruct X as [[?|?] ?] eqn:?
                | destruct X as [?|?] eqn:? ];
          simpl in H; try discriminate H
      end
  end.

Lemma fit_fold_returns (ev : Evaluator) (network : Network) (x : list row)
    (y : list (list real)) (out out' : list (list real) * list (list real))
    (fold : list nat * list nat) (b b' : backend) :
  fit_fold ev network x y out fold b = (Ret out', b') →
  ∃ predicted real_,
    take_rows y fold.2 = Ret real_ ∧ out' = (out.1 ++ predicted, out.2 ++ real_).
Proof.
  intros Hrun.
  unfold fit_fold, with_device, try_except, fit_try in Hrun.
  unfold bind, lift, ret, raise in Hrun.
  repeat step_run Hrun.
  injection Hrun as <- _. eauto.
Qed.

(** X23.  When the loop of [fit] goes through, the ground truth it hands
    to the reduction is made of the processed labels at the test indices of
    each fold, fold after fold: one row for every test index of every
    fold. *)
Theorem fit_loop_gathers_test_labels (ev : Evaluator) (network : Network)
    (x : list row) (y : list (list real)) (folds : list (list nat * list nat))
    (predicted0 real0 : list (list real))
    (out : list (list real) * list (list real)) (b b' : backend) :
  for_each (fit_fold ev network x y) folds (predicted0, real0) b = (Ret out, b') →
  ∃ reals,
    Forall2 (λ fold real_, take_rows y fold.2 = Ret real_) folds reals ∧
    out.2 = real0 ++ concat reals ∧
    length out.2 = length real0 + sum_list (length ∘ snd <$> folds).
Proof.
  revert predicted0 real0 b.
  induction folds as [|fold folds IH]; intros predicted0 real0 b Hrun; simpl in Hrun.
  - injection Hrun as <- _. exists []. simpl. rewrite app_nil_r.
    split_and!; [constructor|done|by rewrite Nat.add_0_r].
  - unfold bind in Hrun.
    destruct (fit_fold ev network x y (predicted0, real0) fold b)
      as [[out1|e] b1] eqn:Hfold; [|done].
    apply fit_fold_returns in Hfold as (predicted & real_ & Hreal & ->).
    simpl in Hrun. apply IH in Hrun as (reals & Hall & Hout & Hlen).
    exists (real_ :: reals). split_and!.
    + by constructor.
    + rewrite Hout. simpl. by rewrite <- app_assoc.
    + rewrite Hlen. simpl. rewrite length_app.
      rewrite (take_rows_length _ _ _ Hreal). unfold compose. simpl.
      symmetry. apply Nat.add_assoc.
Qed.
End FoldExtras.

Lemma other_task_type_fails_after_training_witness :
  fit (toy_evaluator 9 1) toy_regression_network [] =
    (Raise (UnboundLocalError "result"),
     ["process_data"; "enter /device:CPU:0"; "init_tf_graph"; "compile"; "fit";
      "predict"; "exit"; "reset_default_graph"; "clear_session"]) ∧
  fit_generator (toy_evaluator 9 1) toy_regression_network [] =
    (Raise (UnboundLocalError "result"),
     ["DataGenerator"; "DataGenerator"; "enter /device:CPU:0"; "init_tf_graph";
      "compile"; "fit_generator"; "predict_generator"; "exit";
      "reset_default_graph"; "clear_session"]).
Proof.
  assert (Htask : task_type toy_regression_network ≠ "classification") by discriminate.
  split.
  - eapply (proj1 (other_task_type_fails_after_training (toy_evaluator 9 1)
                     toy_regression_network _ _ _ _ Htask)); reflexivity.
  - eapply (proj2 (other_task_type_fails_after_training (toy_evaluator 9 1)
                     toy_regression_network _ _ _ _ Htask)); reflexivity.
Defined.

Lemma unrecognized_measure_fails_after_training_witness :
  fit (fitness_measure_setter "accuracy" (toy_evaluator 9 1)).2 toy_network [] =
    (Raise (TypeError "Unrecognized fitness measure"),
     ["process_data"; "enter /device:CPU:0"; "init_tf_graph"; "compile"; "fit";
      "predict"; "exit"; "reset_default_graph"; "clear_session"]) ∧
  fit_generator (fitness_measure_setter "accuracy" (toy_evaluator 9 1)).2 toy_network [] =
    (Raise (TypeError "Unrecognized fitness measure"),
     ["DataGenerator"; "DataGenerator"; "enter /device:CPU:0"; "init_tf_graph";
      "compile"; "fit_generator"; "predict_generator"; "exit";
      "reset_default_graph"; "clear_session"]).
Proof.
  assert (Hf1 : "accuracy" ≠ "f1") by discriminate.
  assert (Hauc : "accuracy" ≠ "AUC") by discriminate.
  assert (Htask : task_type toy_network = "classification") by reflexivity.
  assert (Hclasses : options toy_network !! "classes" = Some 2%Z) by reflexivity.
  split.
  - eapply (proj1 (unrecognized_measure_fails_after_training (toy_evaluator 9 1)
                     toy_network "accuracy" 2 _ _ _ _ Hf1 Hauc Htask Hclasses));
      reflexivity.
  - eapply (proj2 (unrecognized_measure_fails_after_training (toy_evaluator 9 1)
                     toy_network "accuracy" 2 _ _ _ _ Hf1 Hauc Htask Hclasses));
      reflexivity.
Defined.

Lemma auc_exception_is_not_caught_witness :
  test_classification (toy_evaluator 9 1) [[1; 0]]%Z [[1; 0]]%Z 2
  = Raise (ValueError "At least 2 points are needed").
Proof.
  apply (auc_exception_is_not_caught (toy_evaluator 9 1) [[1; 0]]%Z [[1; 0]]%Z 2 0).
  - reflexivity.
  - simpl. lia.
  - intros j Hj. lia.
  - reflexivity.
Defined.

Lemma auc_of_no_class_witness :
  test_classification (toy_evaluator 9 1) [[1; 0]; [0; 1]]%Z [[1; 0]; [0; 1]]%Z 0
  = Ret (np_sum (Collaborators := toy 9) []).
Proof.
  apply (auc_of_no_class (toy_evaluator 9 1)); [reflexivity|lia].
Defined.

Lemma single_fold_trains_and_tests_on_all_witness :
  fit_try (toy_evaluator 9 1) toy_network [0; 1; 0; 1] (one_hot <$> [0; 1; 0; 1])
    ([], []) (seq 0 4, seq 0 4) []
  = (Ret (one_hot <$> [0; 1; 0; 1], one_hot <$> [0; 1; 0; 1]),
     ["init_tf_graph"; "compile"; "fit"; "predict"]).
Proof.
  rewrite (single_fold_trains_and_tests_on_all (toy_evaluator 9 1) toy_network
             [0; 1; 0; 1] (one_hot <$> [0; 1; 0; 1]) ([], []) []);
    reflexivity.
Defined.

Lemma fit_generator_fewer_labels_witness :
  fit_generator toy_short_labels_evaluator toy_network [] = (Raise IndexError, []).
Proof.
  apply (fit_generator_fewer_labels toy_short_labels_evaluator toy_network []).
  - reflexivity.
  - simpl. lia.
Defined.

Lemma fit_loop_gathers_test_labels_witness :
  ∃ reals : list (list (list Z)),
    Forall2 (λ fold real_, take_rows (one_hot <$> [0; 1; 0; 1]) fold.2 = Ret real_)
      [([1; 2; 3], [0]); ([0], [1; 2; 3])] reals ∧
    (one_hot <$> [0; 1; 0; 1]) = concat reals ∧
    4 = sum_list (length ∘ snd <$> [([1; 2; 3], [0]); ([0], [1; 2; 3])]).
Proof.
  exact (fit_loop_gathers_test_labels (toy_evaluator 9 2) toy_network [0; 1; 0; 1]
           (one_hot <$> [0; 1; 0; 1]) [([1; 2; 3], [0]); ([0], [1; 2; 3])] [] []
           (one_hot <$> [0; 1; 0; 1], one_hot <$> [0; 1; 0; 1])
           []
           ["enter /device:CPU:0"; "init_tf_graph"; "compile"; "fit"; "predict"; "exit";
            "reset_default_graph"; "clear_session";
            "enter /device:CPU:0"; "init_tf_graph"; "compile"; "fit"; "predict"; "exit";
            "reset_default_graph"; "clear_session"]
           eq_refl).
Defined.

Section SplitExtras.
Context {C : Collaborators}.

(** X24.  With cross-validation, [fit_generator] splits on labels that
    are all zero: its folds depend on the fold count and on how many
    samples and labels there are, and on nothing in the samples or the
    labels themselves. *)
Theorem fit_generator_split_ignores_labels (ev ev' : Evaluator) (b : backend) :
  _kfold_number ev = _kfold_number ev' →
  length (_x ev) = length (_x ev') →
  length (_y ev) = length (_y ev') →
  kfold_generator_fit_generator ev b = kfold_generator_fit_generator ev' b.
Proof.
  intros Hk Hx Hy. unfold kfold_generator_fit_generator, whole_range_fold.
  by rewrite Hk, Hx, Hy.
Qed.

(** X25.  The handler of [fit] covers the training calls of a fold and
    nothing else.  A failure of the data preparation reaches the caller as
    it is, before any fold; and when the training calls of a fold went
    through and the reset of the default graph then raises, that exception
    reaches the caller as it is, too. *)
Theorem fit_errors_outside_the_handler (ev : Evaluator) (network : Network) (e : exn) :
  (∀ b b0,
     process_data (_x ev) (_y ev) (data_type network) (task_type network)
       (net_data_processing network) (_create_tokens ev) b = (Raise e, b0) →
     fit ev network b = (Raise e, b0)) ∧
  (∀ x y out out' fold b b1 b2,
     fit_try ev network x y out fold (tf_device_enter (_device ev) b) = (Ret out', b1) →
     tf_reset_default_graph (tf_device_exit b1) = (Raise e, b2) →
     fit_fold ev network x y out fold b = (Raise e, b2)).
Proof.
  split.
  - intros b b0 Hdata. unfold fit, bind at 1. by rewrite Hdata.
  - intros x y out out' fold b b1 b2 Htry Hreset.
    unfold fit_fold, bind at 1. unfold with_device, try_except. rewrite Htry.
    unfold bind at 1. by rewrite Hreset.
Qed.
End SplitExtras.

Lemma fit_generator_split_ignores_labels_witness :
  kfold_generator_fit_generator (toy_evaluator 9 2) []
  = kfold_generator_fit_generator
      (mkEvaluator (C := toy 9) [1; 1; 1; 1] (one_hot <$> [1; 1; 0; 0]) 2
         "/device:GPU:0" true false false 4 (1 # 100)%Q 3 1 "f1") [].
Proof.
  apply (fit_generator_split_ignores_labels (toy_evaluator 9 2)
           (mkEvaluator (C := toy 9) [1; 1; 1; 1] (one_hot <$> [1; 1; 0; 0]) 2
              "/device:GPU:0" true false false 4 (1 # 100)%Q 3 1 "f1") []);
    reflexivity.
Defined.

Lemma fit_errors_outside_the_handler_witness :
  fit (frail_evaluator []) toy_network []
    = (Raise (ValueError "no data"), ["process_data"]) ∧
  fit_fold (frail_evaluator [0; 1]) toy_network [0; 1] (one_hot <$> [0; 1]) ([], [])
    ([0; 1], [0; 1]) []
    = (Raise (BackendError "reset_default_graph"),
       ["enter /device:CPU:0"; "init_tf_graph"; "compile"; "fit"; "predict"; "exit";
        "reset_default_graph"]).
Proof.
  split.
  - apply (proj1 (fit_errors_outside_the_handler (frail_evaluator []) toy_network
                    (ValueError "no data")) [] ["process_data"]).
    reflexivity.
  - apply (proj2 (fit_errors_outside_the_handler (frail_evaluator [0; 1]) toy_network
                    (BackendError "reset_default_graph"))
             [0; 1] (one_hot <$> [0; 1]) ([], [])
             (one_hot <$> [0; 1], one_hot <$> [0; 1]) ([0; 1], [0; 1]) []
             ["enter /device:CPU:0"; "init_tf_graph"; "compile"; "fit"; "predict"]);
      reflexivity.
Defined.

Section GeneratorLoop.
Context {C : Collaborators}.

Ltac step_run H :=
  match type of H with
  | context [match ?X with _ => _ end] =>
      lazymatch X with
      | context [match _ with _ => _ end] => fail
      | _ =>
          first [ destruct X as [[?|?] ?] eqn:?
                | destruct X as [?|?] eqn:? ];
          simpl in H; try discriminate H
      end
  end.

Lemma fit_generator_fold_returns (ev : Evaluator) (network : Network)
    (out out' : list (list real) * list (list real))
    (fold : list nat * list nat) (b b' : backend) :
  fit_generator_fold ev network out fold b = (Ret out', b') →
  ∃ predicted y_test,
    take_rows (_y ev) fold.2 = Ret y_test ∧
    out' = (out.1 ++ predicted, out.2 ++ label_rows y_test).
Proof.
  intros Hrun.
  unfold fit_generator_fold, fold_generators, with_device, fit_generator_body in Hrun.
  unfold bind, lift, ret, raise in Hrun.
  repeat step_run Hrun.
  injection Hrun as <- _. eauto.
Qed.

(** X26.  When the loop of [fit_generator] goes through, the ground truth
    it hands to the reduction is made of the labels as they were given, not
    of processed ones, at the test indices of each fold, fold after
    fold. *)
Theorem fit_generator_loop_gathers_raw_labels (ev : Evaluator) (network : Network)
    (folds : list (list nat * list nat)) (predicted0 real0 : list (list real))
    (out : list (list real) * list (list real)) (b b' : backend) :
  for_each (fit_generator_fold ev network) folds (predicted0, real0) b = (Ret out, b') →
  ∃ tests,
    Forall2 (λ fold y_test, take_rows (_y ev) fold.2 = Ret y_test) folds tests ∧
    out.2 = real0 ++ concat (label_rows <$> tests).
Proof.
  revert predicted0 real0 b.
  induction folds as [|fold folds IH]; intros predicted0 real0 b Hrun; simpl in Hrun.
  - injection Hrun as <- _. exists []. simpl. rewrite app_nil_r.
    split; [constructor|done].
  - unfold bind in Hrun.
    destruct (fit_generator_fold ev network (predicted0, real0) fold b)
      as [[out1|e] b1] eqn:Hfold; [|done].
    apply fit_generator_fold_returns in Hfold as (predicted & y_test & Htest & ->).
    simpl in Hrun. apply IH in Hrun as (tests & Hall & Hout).
    exists (y_test :: tests). split.
    + by constructor.
    + rewrite Hout. simpl. by rewrite <- app_assoc.
Qed.
End GeneratorLoop.

Lemma fit_generator_loop_gathers_raw_labels_witness :
  ∃ tests : list (list (list Z)),
    Forall2 (λ fold y_test, take_rows (one_hot <$> [0; 1; 0; 1]) fold.2 = Ret y_test)
      [([1; 2; 3], [0]); ([0], [1; 2; 3])] tests ∧
    (one_hot <$> [0; 1; 0; 1]) = concat ((λ y, y) <$> tests).
Proof.
  exact (fit_generator_loop_gathers_raw_labels (toy_evaluator 9 2) toy_network
           [([1; 2; 3], [0]); ([0], [1; 2; 3])] [] []
           (replicate 4 (one_hot 0), one_hot <$> [0; 1; 0; 1])
           []
           ["DataGenerator"; "DataGenerator"; "enter /device:CPU:0"; "init_tf_graph";
            "compile"; "fit_generator"; "predict_generator"; "exit";
            "reset_default_graph"; "clear_session";
            "DataGenerator"; "DataGenerator"; "enter /device:CPU:0"; "init_tf_graph";
            "compile"; "fit_generator"; "predict_generator"; "exit";
            "reset_default_graph"; "clear_session"]
           eq_refl).
Defined.

(** ** The AUC reduction and the classes whose curve failed *)


Section AucReduction.
Context {C : Collaborators}.


End AucReduction.

